(** * Flood-risk prediction service: a shallow embedding

    The development follows the repository layer by layer:

    - [Backend]: the FastAPI handler [predict_flood] and the predictor
      service ([_prepare_input], [predict], [_calculate_risk_level]) as
      listed in REQUEST_FLOW_EXPLANATION.md;
    - [Weather]: the weather aggregation service (live rolling windows and
      the 30-day historical series);
    - [Frontend]: the React components ([PredictionForm], [HistoricalChart],
      [RiskGauge]) with their state written as explicit records.

    Numbers.  Python floats and JavaScript numbers are IEEE doubles.  A
    finite double is taken as the exact rational it denotes and the three
    special values are kept apart, so that the sanitising code can be
    stated; rounding of arithmetic results is not modelled. *)

From Stdlib Require Import QArith Qabs Qround Lqa ZArith Lia Ascii String.
From stdpp Require Import base option list strings gmap pretty.

Local Open Scope Q_scope.

(** ** Numbers *)

Inductive number : Type :=
  | Finite (q : Q)
  | PInf
  | NInf
  | NaN.

Definition is_finite (v : number) : bool :=
  match v with Finite _ => true | _ => false end.

Definition of_int (z : Z) : number := Finite (inject_Z z).

(** [x < y] and [x >= y] on finite values, as decided by the interpreter. *)
Definition Qlt_bool (x y : Q) : bool :=
  match x ?= y with Lt => true | _ => false end.

Definition Qge_bool (x y : Q) : bool := Qle_bool y x.

(** ** The backend (Python) *)

Module Backend.

(** *** Exceptions

    Only the classes the handler can meet are listed.  FastAPI's
    [HTTPException] derives from [Exception]; [KeyboardInterrupt] derives
    from [BaseException] only. *)

Inductive exn : Type :=
  | HTTPException (status_code : Z) (detail : string)
  | CatBoostError (message : string)
  | KeyboardInterrupt.

Definition isinstance_Exception (e : exn) : bool :=
  match e with
  | HTTPException _ _ => true
  | CatBoostError _ => true
  | KeyboardInterrupt => false
  end.

Inductive result (A : Type) : Type :=
  | Ok (a : A)
  | Raise (e : exn).
Arguments Ok {A} a.
Arguments Raise {A} e.

#[global] Instance result_ret : MRet result := fun A a => Ok a.
#[global] Instance result_bind : MBind result := fun A B f m =>
  match m with
  | Ok a => f a
  | Raise e => Raise e
  end.

(** [try: body  except Exception as e: handler e] *)
Definition try_except_Exception {A} (body : result A) (handler : exn -> result A)
  : result A :=
  match body with
  | Ok a => Ok a
  | Raise e => if isinstance_Exception e then handler e else Raise e
  end.

(** The status line FastAPI sends: 200 for a returned value, the status
    of an [HTTPException], 500 for anything else that escapes. *)
Definition http_status {A} (r : result A) : Z :=
  match r with
  | Ok _ => 200
  | Raise (HTTPException status_code _) => status_code
  | Raise _ => 500
  end.

(** *** Request and response models (backend/app/models.py) *)

Record PredictionRequest : Type := {
  lat : number;
  lon : number;
  date : Z;
  elevation : number;
  slope : number;
  landcover : Z;
  precip_1d : number;
  precip_3d : number;
  precip_7d : number;
  precip_14d : number;
  dis_last : number;
  dis_trend_3 : number;
  dayofyear : Z
}.

Inductive RiskLevel : Type := Low | Medium | High.

Record PredictionResponse : Type := {
  flood_probability : Q;
  risk_level : RiskLevel;
  is_flood_predicted : bool;
  confidence : Q
}.

(** *** Request validation

    A JSON object is the ordered list of its members; [json_loads] keeps
    the last member of a repeated key, as Python's decoder does.  The
    model is built by field name.  Every field is required; the three
    [int] fields take integral finite numbers only. *)

Definition json_object : Type := list (string * number).

Definition json_loads (body : json_object) : gmap string number :=
  list_to_map (reverse body).

Definition as_int (v : number) : option Z :=
  match v with
  | Finite q => if Qeq_bool q (inject_Z (Qfloor q)) then Some (Qfloor q) else None
  | _ => None
  end.

Definition validate (body : json_object) : option PredictionRequest :=
  let o := json_loads body in
  lat ← o !! "lat";
  lon ← o !! "lon";
  date ← o !! "date" ≫= as_int;
  elevation ← o !! "elevation";
  slope ← o !! "slope";
  landcover ← o !! "landcover" ≫= as_int;
  precip_1d ← o !! "precip_1d";
  precip_3d ← o !! "precip_3d";
  precip_7d ← o !! "precip_7d";
  precip_14d ← o !! "precip_14d";
  dis_last ← o !! "dis_last";
  dis_trend_3 ← o !! "dis_trend_3";
  dayofyear ← o !! "dayofyear" ≫= as_int;
  Some {| lat := lat; lon := lon; date := date; elevation := elevation;
          slope := slope; landcover := landcover; precip_1d := precip_1d;
          precip_3d := precip_3d; precip_7d := precip_7d;
          precip_14d := precip_14d; dis_last := dis_last;
          dis_trend_3 := dis_trend_3; dayofyear := dayofyear |}.

(** *** The predictor service (backend/app/predictor.py) *)

(** The loaded classifier is opaque: [predict_proba] maps one feature row
    to the pair [(p_no_flood, p_flood)], or raises. *)
Record Predictor : Type := {
  model_loaded : bool;
  feature_names : list string;
  predict_proba : list number -> result (Q * Q)
}.

(** Modelled from the spec: the model metadata file is not part of the
    sources; the ordered list of the 13 feature names is the one of the
    feature table in backend/README.md. *)
Definition model_feature_names : list string :=
  ["lat"; "lon"; "date"; "elevation"; "slope"; "landcover"; "precip_1d";
   "precip_3d"; "precip_7d"; "precip_14d"; "dis_last"; "dis_trend_3";
   "dayofyear"].

(** [pd.DataFrame([data], columns=columns)]: one row, one cell for each
    requested column, NaN where the dict has no such key. *)
Definition DataFrame (data : gmap string number) (columns : list string)
  : list number :=
  (fun c => default NaN (data !! c)) <$> columns.

(** [df.replace([np.inf, -np.inf], np.nan)] *)
Definition replace_inf_with_nan (v : number) : number :=
  match v with
  | PInf | NInf => NaN
  | _ => v
  end.

(** [df.fillna(value)] *)
Definition fillna (value : number) (v : number) : number :=
  match v with
  | NaN => value
  | _ => v
  end.

(** The dict built in step 5.1.1. *)
Definition request_data (request : PredictionRequest) : gmap string number :=
  list_to_map
    [("lat", lat request);
     ("lon", lon request);
     ("date", of_int (date request));
     ("elevation", elevation request);
     ("slope", slope request);
     ("landcover", of_int (landcover request));
     ("precip_1d", precip_1d request);
     ("precip_3d", precip_3d request);
     ("precip_7d", precip_7d request);
     ("precip_14d", precip_14d request);
     ("dis_last", dis_last request);
     ("dis_trend_3", dis_trend_3 request);
     ("dayofyear", of_int (dayofyear request))].

Definition _prepare_input (self : Predictor) (request : PredictionRequest)
  : list number :=
  let data := request_data request in
  let df := DataFrame data (feature_names self) in
  let df := replace_inf_with_nan <$> df in
  let df := fillna (Finite 0.0) <$> df in
  df.

Definition _calculate_risk_level (probability : Q) : RiskLevel :=
  if Qlt_bool probability 0.3 then Low
  else if Qlt_bool probability 0.7 then Medium
  else High.

Definition predict (self : Predictor) (request : PredictionRequest)
  : result PredictionResponse :=
  let input_df := _prepare_input self request in
  probabilities ← predict_proba self input_df;
  let flood_probability := snd probabilities in
  let confidence := Qabs (flood_probability - 0.5) * 2 in
  let risk_level := _calculate_risk_level flood_probability in
  Ok {| flood_probability := flood_probability;
        risk_level := risk_level;
        is_flood_predicted := Qge_bool flood_probability 0.5;
        confidence := confidence |}.

(** *** The endpoint (backend/app/main.py)

    [str] is Python's conversion of an exception to text; the handler
    only forwards it.  The two logging calls leave the response alone and
    are left out. *)
Section Endpoint.
Variable str : exn -> string.

Definition predict_flood (predictor : Predictor) (request : PredictionRequest)
  : result PredictionResponse :=
  try_except_Exception
    (if negb (model_loaded predictor)
     then Raise (HTTPException 503 "Model not loaded")
     else
       prediction ← predict predictor request;
       Ok prediction)
    (fun e => Raise (HTTPException 500 (str e))).
End Endpoint.

End Backend.


(** ** The weather aggregation service

    backend/app/weather.py is named by the project layout in README.md but
    is not among the sources; both operations follow the specification. *)

Module Weather.

Module WeatherSample.
Record t : Type := {
  precipitation : Q;
  max_temperature : Q
}.
End WeatherSample.

Record LivePatch : Type := {
  elevation : Q;
  precip_1d : Q;
  precip_3d : Q;
  precip_7d : Q;
  precip_14d : Q
}.

Definition Qsum (l : list Q) : Q := foldr Qplus 0 l.

(** The last [n] entries of a series (all of it when it is shorter). *)
Definition trailing {A} (n : nat) (l : list A) : list A :=
  drop (length l - n) l.

(** Modelled from the spec: the padding rule of live aggregation
    (weather.py is missing).  Days that precede the available history
    count as zero. *)
Definition pad_history (n : nat) (days : list Q) : list Q :=
  replicate (n - length days) 0 ++ days.

(** Modelled from the spec: a rolling window (weather.py is missing), the
    sum over the trailing [n] days of the padded history. *)
Definition window_sum (n : nat) (days : list Q) : Q :=
  Qsum (trailing n (pad_history n days)).

(** Modelled from the spec: live aggregation (weather.py is missing).
    [days] is the daily precipitation returned by the source adapter, most
    recent last.  [precip_1d] is the last day's value, the other three are
    sums over the trailing 3, 7 and 14 days, padded with zero where the
    history is short; the elevation is passed along. *)
Definition live_aggregation (elev : Q) (days : list Q) : LivePatch :=
  {| elevation := elev;
     precip_1d := default 0 (last days);
     precip_3d := window_sum 3 days;
     precip_7d := window_sum 7 days;
     precip_14d := window_sum 14 days |}.

(** Modelled from the spec: the body of a [/weather/history] answer
    (weather.py is missing).  A [None] cell is the JSON [null] that flags a
    day the provider has no sample for. *)
Record HistoryResponse : Type := {
  dates : list string;
  precipitation : list (option Q);
  temperature : list (option Q)
}.

(** Modelled from the spec: the span of a historical series (weather.py is
    missing), the 30 consecutive day numbers that end at [today], oldest
    first. *)
Definition history_window (today : Z) : list Z := seqZ (today - 29) 30.

Section History.
(** [isoformat] prints a day number as a calendar date. *)
Variable isoformat : Z -> string.

(** Modelled from the spec: historical series (weather.py is missing).
    The provider's samples are keyed by day number.  The answer always
    spans the 30 days ending today in chronological order; a day without a
    sample is flagged by [None] in both value columns, never dropped and
    never interpolated. *)
Definition historical_series (provider : gmap Z WeatherSample.t) (today : Z)
  : HistoryResponse :=
  let days := history_window today in
  {| dates := isoformat <$> days;
     precipitation :=
       (fun d => WeatherSample.precipitation <$> provider !! d) <$> days;
     temperature :=
       (fun d => WeatherSample.max_temperature <$> provider !! d) <$> days |}.
End History.

End Weather.


(** ** The frontend (TypeScript, React) *)

Module Frontend.

(** *** JavaScript values

    The values a numeric form field or a JSON cell can hold at run time. *)

Inductive jsval : Type :=
  | JUndefined
  | JNull
  | JNum (n : number).

(** ToBoolean: [undefined], [null], [0] and [NaN] are falsy. *)
Definition truthy (v : jsval) : bool :=
  match v with
  | JNum (Finite q) => negb (Qeq_bool q 0)
  | JNum PInf | JNum NInf => true
  | JNum NaN => false
  | JUndefined | JNull => false
  end.

(** [a || b] *)
Definition js_or (a b : jsval) : jsval := if truthy a then a else b.

(** A JSON object received from the API, and the read [o.key]. *)
Definition get (o : gmap string jsval) (key : string) : jsval :=
  default JUndefined (o !! key).

(** [xs[i]] *)
Definition index (xs : list jsval) (i : nat) : jsval :=
  default JUndefined (xs !! i).

(** A JSON cell that holds a number or [null], as the client reads it. *)
Definition of_json_cell (c : option Q) : jsval :=
  match c with
  | Some q => JNum (Finite q)
  | None => JNull
  end.

(** *** types/index.ts *)

Record PredictionRequest : Type := {
  lat : jsval;
  lon : jsval;
  date : jsval;
  elevation : jsval;
  slope : jsval;
  landcover : jsval;
  precip_1d : jsval;
  precip_3d : jsval;
  precip_7d : jsval;
  precip_14d : jsval;
  dis_last : jsval;
  dis_trend_3 : jsval;
  dayofyear : jsval
}.

(** *** RiskGauge.tsx *)

Definition getGaugeColor (probability : Q) : string :=
  if Qlt_bool probability 0.3 then "var(--risk-low)"
  else if Qlt_bool probability 0.6 then "var(--risk-medium)"
  else "var(--risk-high)".

(** *** HistoricalChart.tsx *)

Module ChartData.
Record t : Type := {
  rawDate : string;
  precipitation : jsval;
  temperature : jsval
}.
End ChartData.

(** The [dates.map((date, i) => ...)] of [fetchData]; [displayDate] is a
    locale rendering of [rawDate] and is not kept. *)
Definition chartData (dates : list string) (precipitation temperature : list jsval)
  : list ChartData.t :=
  imap (fun i date =>
          {| ChartData.rawDate := date;
             ChartData.precipitation := index precipitation i;
             ChartData.temperature := index temperature i |})
       dates.

(** *** The host's [Date]

    Time stamps are milliseconds since the epoch.  [Date_parse s] is
    [new Date(s).getTime()] ([None] for an invalid date),
    [Date_getFullYear t] the calendar year of [t] in the host's time zone,
    [Date_local y m d] is [new Date(y, m, d).getTime()]. *)

Class DateHost : Type := {
  Date_parse : string -> option Z;
  Date_getFullYear : Z -> Z;
  Date_local : Z -> Z -> Z -> Z
}.

(** *** PredictionForm.tsx *)

Module Entry.
Record t : Type := {
  date : string;
  precipitation : jsval;
  temperature : jsval
}.
End Entry.

Record FormState : Type := {
  formData : PredictionRequest;
  isFetchingWeather : bool;
  alerts : list string
}.

Definition setFormData (f : PredictionRequest -> PredictionRequest) (s : FormState)
  : FormState :=
  {| formData := f (formData s);
     isFetchingWeather := isFetchingWeather s;
     alerts := alerts s |}.

Definition setIsFetchingWeather (b : bool) (s : FormState) : FormState :=
  {| formData := formData s; isFetchingWeather := b; alerts := alerts s |}.

Definition alert (message : string) (s : FormState) : FormState :=
  {| formData := formData s;
     isFetchingWeather := isFetchingWeather s;
     alerts := alerts s ++ [message] |}.

(** [response] is the outcome of the awaited [axios.get]: the [data] of the
    answer, or [None] when the promise is rejected. *)
Definition fetchLiveData (response : option (gmap string jsval)) (s : FormState)
  : FormState :=
  let s := setIsFetchingWeather true s in
  let s :=
    match response with
    | Some data =>
        setFormData (fun prev =>
          {| lat := lat prev;
             lon := lon prev;
             date := date prev;
             elevation := get data "elevation";
             slope := js_or (get data "slope") (slope prev);
             landcover := js_or (get data "landcover") (landcover prev);
             precip_1d := get data "precip_1d";
             precip_3d := get data "precip_3d";
             precip_7d := get data "precip_7d";
             precip_14d := get data "precip_14d";
             dis_last := js_or (get data "dis_last") (dis_last prev);
             dis_trend_3 := js_or (get data "dis_trend_3") (dis_trend_3 prev);
             dayofyear := dayofyear prev |}) s
    | None =>
        alert "Failed to fetch live weather data. Please try again." s
    end in
  setIsFetchingWeather false s.

Section HistoricalDate.
Context `{DateHost}.

(** The day-of-year computation at the head of
    [handleHistoricalDateSelect]; an invalid date propagates as [NaN]. *)
Definition dayOfYear (date : string) : number :=
  match Date_parse date with
  | None => NaN
  | Some dateObj =>
      let start := Date_local (Date_getFullYear dateObj) 0 0 in
      let diff := (dateObj - start)%Z in
      let oneDay := (1000 * 60 * 60 * 24)%Z in
      of_int (diff / oneDay)
  end.

End HistoricalDate.

(** *** A host whose time zone is UTC

    The calendar arithmetic is the usual proleptic-Gregorian day count.
    This host reads calendar dates [YYYY-MM-DD], which is what the history
    endpoint sends. *)

Module UTC.

Definition days_from_civil (y m d : Z) : Z :=
  (let y := if m <=? 2 then y - 1 else y in
   let era := y / 400 in
   let yoe := y - era * 400 in
   let mp := if m >? 2 then m - 3 else m + 9 in
   let doy := (153 * mp + 2) / 5 + d - 1 in
   let doe := yoe * 365 + yoe / 4 - yoe / 100 + doy in
   era * 146097 + doe - 719468)%Z.

Definition year_from_days (z : Z) : Z :=
  (let z := z + 719468 in
   let era := z / 146097 in
   let doe := z - era * 146097 in
   let yoe := (doe - doe / 1460 + doe / 36524 - doe / 146096) / 365 in
   let y := yoe + era * 400 in
   let doy := doe - (365 * yoe + yoe / 4 - yoe / 100) in
   let mp := (5 * doy + 2) / 153 in
   let m := if mp <? 10 then mp + 3 else mp - 9 in
   if m <=? 2 then y + 1 else y)%Z.

Definition digit (c : ascii) : option Z :=
  let n := Z.of_nat (nat_of_ascii c) in
  if ((48 <=? n) && (n <=? 57))%Z then Some (n - 48)%Z else None.

Fixpoint digits (acc : Z) (s : string) : option Z :=
  match s with
  | EmptyString => Some acc
  | String c s => d ← digit c; digits (10 * acc + d)%Z s
  end.

Definition parse_iso_date (s : string) : option (Z * Z * Z) :=
  if decide (String.length s = 10%nat
             ∧ String.get 4 s = Some "-"%char
             ∧ String.get 7 s = Some "-"%char)
  then
    y ← digits 0 (String.substring 0 4 s);
    m ← digits 0 (String.substring 5 2 s);
    d ← digits 0 (String.substring 8 2 s);
    if ((1 <=? m) && (m <=? 12) && (1 <=? d) && (d <=? 31))%Z
    then Some (y, m, d)
    else None
  else None.

Definition msPerDay : Z := 86400000.

#[export] Instance host : DateHost := {
  Date_parse s :=
    '(y, m, d) ← parse_iso_date s;
    Some (days_from_civil y m d * msPerDay)%Z;
  Date_getFullYear t := year_from_days (t / msPerDay);
  Date_local y m d := (days_from_civil y (m + 1) d * msPerDay)%Z
}.

End UTC.

End Frontend.


(** ** Shared frontend types and the browser store (types/index.ts)

    A successful answer decodes to the four fields of the backend's
    response, so [Backend.PredictionResponse] and [Backend.RiskLevel] are
    used on both sides. *)

#[global] Instance RiskLevel_eq_dec : EqDecision Backend.RiskLevel.
Proof. solve_decision. Defined.

Module Types.
Import Frontend.

(** What [JSON.parse(JSON.stringify(v))] gives back for a field value: a
    non-finite number is written as [null]; an undefined member is left out
    and reads back as undefined. *)
Definition JSON_roundtrip (v : jsval) : jsval :=
  match v with
  | JNum (Finite q) => JNum (Finite q)
  | JNum _ => JNull
  | JNull => JNull
  | JUndefined => JUndefined
  end.

Definition PredictionRequest_roundtrip (r : PredictionRequest) : PredictionRequest :=
  {| lat := JSON_roundtrip (lat r);
     lon := JSON_roundtrip (lon r);
     date := JSON_roundtrip (date r);
     elevation := JSON_roundtrip (elevation r);
     slope := JSON_roundtrip (slope r);
     landcover := JSON_roundtrip (landcover r);
     precip_1d := JSON_roundtrip (precip_1d r);
     precip_3d := JSON_roundtrip (precip_3d r);
     precip_7d := JSON_roundtrip (precip_7d r);
     precip_14d := JSON_roundtrip (precip_14d r);
     dis_last := JSON_roundtrip (dis_last r);
     dis_trend_3 := JSON_roundtrip (dis_trend_3 r);
     dayofyear := JSON_roundtrip (dayofyear r) |}.

Module Alert.
Record t : Type := {
  id : string;
  timestamp : string;
  location : string;
  lat : jsval;
  lon : jsval;
  riskLevel : Backend.RiskLevel;
  probability : Q;
  message : string;
  isRead : bool
}.

(** [{ ...a, isRead: b }] *)
Definition set_isRead (b : bool) (a : t) : t :=
  {| id := id a; timestamp := timestamp a; location := location a;
     lat := lat a; lon := lon a; riskLevel := riskLevel a;
     probability := probability a; message := message a; isRead := b |}.

Definition roundtrip (a : t) : t :=
  {| id := id a; timestamp := timestamp a; location := location a;
     lat := JSON_roundtrip (lat a); lon := JSON_roundtrip (lon a);
     riskLevel := riskLevel a; probability := probability a;
     message := message a; isRead := isRead a |}.
End Alert.

Module PredictionHistoryEntry.
Record t : Type := {
  id : string;
  timestamp : string;
  location : string;
  lat : jsval;
  lon : jsval;
  request : PredictionRequest;
  response : Backend.PredictionResponse
}.

Definition roundtrip (e : t) : t :=
  {| id := id e; timestamp := timestamp e; location := location e;
     lat := JSON_roundtrip (lat e); lon := JSON_roundtrip (lon e);
     request := PredictionRequest_roundtrip (request e);
     response := response e |}.
End PredictionHistoryEntry.

(** The two [localStorage] keys shared between components, with the decoded
    value each holds ([None]: the key is absent).  Only this application
    writes them. *)
Record localStorage : Type := {
  prediction_history : option (list PredictionHistoryEntry.t);
  flood_alerts : option (list Alert.t)
}.

(** [localStorage.setItem('prediction-history', JSON.stringify(v))] *)
Definition setItem_prediction_history (v : list PredictionHistoryEntry.t)
    (ls : localStorage) : localStorage :=
  {| prediction_history := Some (PredictionHistoryEntry.roundtrip <$> v);
     flood_alerts := flood_alerts ls |}.

(** [localStorage.setItem('flood-alerts', JSON.stringify(v))] *)
Definition setItem_flood_alerts (v : list Alert.t) (ls : localStorage)
  : localStorage :=
  {| prediction_history := prediction_history ls;
     flood_alerts := Some (Alert.roundtrip <$> v) |}.

End Types.

(** ** AlertCenter.tsx *)

Module AlertCenter.
Import Types.

Inductive Filter : Type :=
  | all
  | level (r : Backend.RiskLevel).

Record State : Type := {
  alerts : list Alert.t;
  isOpen : bool;
  filter : Filter
}.

Definition initial : State := {| alerts := []; isOpen := false; filter := all |}.

Definition setAlerts (v : list Alert.t) (s : State) : State :=
  {| alerts := v; isOpen := isOpen s; filter := filter s |}.

Definition setFilter (v : Filter) (s : State) : State :=
  {| alerts := alerts s; isOpen := isOpen s; filter := v |}.


(** [alerts.filter(a => !a.isRead)] *)
Definition unread (l : list Alert.t) : list Alert.t :=
  List.filter (fun a => negb (Alert.isRead a)) l.

Definition unreadCount (s : State) : nat := length (unread (alerts s)).

Definition filteredAlerts (s : State) : list Alert.t :=
  match filter s with
  | all => alerts s
  | level r => List.filter (fun a => bool_decide (Alert.riskLevel a = r)) (alerts s)
  end.

(** The callback of the [map] in [markAsRead]. *)
Definition markRead_if (id : string) (a : Alert.t) : Alert.t :=
  if bool_decide (Alert.id a = id) then Alert.set_isRead true a else a.

Definition markAsRead (id : string) (w : State * localStorage)
  : State * localStorage :=
  let '(s, ls) := w in
  let updated := map (markRead_if id) (alerts s) in
  (setAlerts updated s, setItem_flood_alerts updated ls).

Definition markAllAsRead (w : State * localStorage) : State * localStorage :=
  let '(s, ls) := w in
  let updated := map (Alert.set_isRead true) (alerts s) in
  (setAlerts updated s, setItem_flood_alerts updated ls).

Definition deleteAlert (id : string) (w : State * localStorage)
  : State * localStorage :=
  let '(s, ls) := w in
  let updated := List.filter (fun a => negb (bool_decide (Alert.id a = id))) (alerts s) in
  (setAlerts updated s, setItem_flood_alerts updated ls).

End AlertCenter.

(** ** Dashboard.tsx *)

Module Dashboard.
Import Types.

Record StatisticsData : Type := {
  totalPredictions : nat;
  highRiskCount : nat;
  mediumRiskCount : nat;
  lowRiskCount : nat;
  averageRisk : Q;
  recentPredictions : list PredictionHistoryEntry.t
}.

Definition initial : StatisticsData :=
  {| totalPredictions := 0; highRiskCount := 0; mediumRiskCount := 0;
     lowRiskCount := 0; averageRisk := 0; recentPredictions := [] |}.

Definition count_level (r : Backend.RiskLevel)
    (predictions : list PredictionHistoryEntry.t) : nat :=
  length (List.filter
            (fun p => bool_decide
                        (Backend.risk_level (PredictionHistoryEntry.response p) = r))
            predictions).

(** [xs.slice(-n)] *)
Definition slice_last {A} (n : nat) (xs : list A) : list A :=
  drop (length xs - n) xs.

(** The effect run once when the dashboard is mounted. *)
Definition load (ls : localStorage) : StatisticsData :=
  match prediction_history ls with
  | Some predictions =>
      let highRisk := count_level Backend.High predictions in
      let mediumRisk := count_level Backend.Medium predictions in
      let lowRisk := count_level Backend.Low predictions in
      let avgRisk :=
        if bool_decide (0 < length predictions)%nat
        then foldl (fun sum p =>
                      sum + Backend.flood_probability (PredictionHistoryEntry.response p))
                   0 predictions
             / inject_Z (Z.of_nat (length predictions))
        else 0 in
      {| totalPredictions := length predictions;
         highRiskCount := highRisk;
         mediumRiskCount := mediumRisk;
         lowRiskCount := lowRisk;
         averageRisk := avgRisk;
         recentPredictions := reverse (slice_last 10 predictions) |}
  | None => initial
  end.

Definition riskDistribution (stats : StatisticsData) : list (string * nat * string) :=
  [("Low Risk", lowRiskCount stats, "#10B981");
   ("Medium Risk", mediumRiskCount stats, "#F59E0B");
   ("High Risk", highRiskCount stats, "#EF4444")].

Module TrendPoint.
Record t : Type := {
  name : string;
  probability : string;
  confidence : string
}.
End TrendPoint.

Section Trend.
(** [toFixed x digits] is the host's [x.toFixed(digits)]. *)
Variable toFixed : Q -> nat -> string.

Definition trendData (stats : StatisticsData) : list TrendPoint.t :=
  reverse
    (imap (fun idx pred =>
             {| TrendPoint.name :=
                  "#" +:+ pretty (length (recentPredictions stats) - idx)%nat;
                TrendPoint.probability :=
                  toFixed (Backend.flood_probability
                             (PredictionHistoryEntry.response pred) * 100) 1;
                TrendPoint.confidence :=
                  toFixed (Backend.confidence
                             (PredictionHistoryEntry.response pred) * 100) 1 |})
          (recentPredictions stats)).
End Trend.

End Dashboard.

(** ** RiskGauge.tsx and ResultCard.tsx *)

Module RiskGauge.





End RiskGauge.

Module ResultCard.


Definition getRiskGradient (result : Backend.PredictionResponse) : string :=
  match Backend.risk_level result with
  | Backend.Low => "var(--gradient-risk-low)"
  | Backend.Medium => "var(--gradient-risk-medium)"
  | Backend.High => "var(--gradient-risk-high)"
  end.

Definition subtitle (result : Backend.PredictionResponse) : string :=
  if Backend.is_flood_predicted result then "Flood Predicted" else "No Flood Predicted".

End ResultCard.

(** ** ComparisonTool.tsx *)

Module ComparisonTool.
Import Frontend.

Module Location.
Record t : Type := {
  id : string;
  nickname : string;
  lat : jsval;
  lon : jsval;
  precip_1d : jsval;
  precip_3d : jsval;
  precip_7d : jsval;
  precip_14d : jsval;
  prediction : option Backend.PredictionResponse
}.

(** [{ ...loc, prediction }] *)
Definition set_prediction (p : Backend.PredictionResponse) (loc : t) : t :=
  {| id := id loc; nickname := nickname loc; lat := lat loc; lon := lon loc;
     precip_1d := precip_1d loc; precip_3d := precip_3d loc;
     precip_7d := precip_7d loc; precip_14d := precip_14d loc;
     prediction := Some p |}.
End Location.

(** The [(field, value)] pairs the inputs of the card pass to
    [updateLocation]. *)
Inductive assignment : Type :=
  | nickname (value : string)
  | lat (value : jsval)
  | lon (value : jsval)
  | precip_1d (value : jsval)
  | precip_3d (value : jsval)
  | precip_7d (value : jsval)
  | precip_14d (value : jsval).

(** [{ ...loc, [field]: value }] *)
Definition assign (a : assignment) (loc : Location.t) : Location.t :=
  {| Location.id := Location.id loc;
     Location.nickname :=
       match a with nickname v => v | _ => Location.nickname loc end;
     Location.lat := match a with lat v => v | _ => Location.lat loc end;
     Location.lon := match a with lon v => v | _ => Location.lon loc end;
     Location.precip_1d :=
       match a with precip_1d v => v | _ => Location.precip_1d loc end;
     Location.precip_3d :=
       match a with precip_3d v => v | _ => Location.precip_3d loc end;
     Location.precip_7d :=
       match a with precip_7d v => v | _ => Location.precip_7d loc end;
     Location.precip_14d :=
       match a with precip_14d v => v | _ => Location.precip_14d loc end;
     Location.prediction := Location.prediction loc |}.

Record State : Type := {
  locations : list Location.t;
  isLoading : bool;
  alerts : list string
}.

Definition initial : State := {| locations := []; isLoading := false; alerts := [] |}.

Definition setLocations (v : list Location.t) (s : State) : State :=
  {| locations := v; isLoading := isLoading s; alerts := alerts s |}.

Definition setIsLoading (b : bool) (s : State) : State :=
  {| locations := locations s; isLoading := b; alerts := alerts s |}.

Definition alert (message : string) (s : State) : State :=
  {| locations := locations s; isLoading := isLoading s;
     alerts := alerts s ++ [message] |}.

Definition num (q : Q) : jsval := JNum (Finite q).

(** [now] is [Date.now().toString()]. *)
Definition addLocation (now : string) (s : State) : State :=
  if bool_decide (3 <= length (locations s))%nat
  then alert "Maximum 3 locations can be compared" s
  else
    let newLocation :=
      {| Location.id := now;
         Location.nickname := "Location " +:+ pretty (length (locations s) + 1)%nat;
         Location.lat := num 23.8103;
         Location.lon := num 90.4125;
         Location.precip_1d := num 50;
         Location.precip_3d := num 120;
         Location.precip_7d := num 200;
         Location.precip_14d := num 300;
         Location.prediction := None |} in
    setLocations (locations s ++ [newLocation]) s.

Definition removeLocation (id : string) (s : State) : State :=
  setLocations
    (List.filter (fun loc => negb (bool_decide (Location.id loc = id))) (locations s)) s.

Definition updateLocation (id : string) (a : assignment) (s : State) : State :=
  setLocations
    (map (fun loc => if bool_decide (Location.id loc = id) then assign a loc else loc)
         (locations s)) s.

(** The request [runComparison] builds for one location; [day] holds the two
    readings of [new Date().getDay()]. *)
Definition request_of (day : Z * Z) (loc : Location.t) : PredictionRequest :=
  {| Frontend.lat := Location.lat loc;
     Frontend.lon := Location.lon loc;
     Frontend.date := JNum (of_int (fst day));
     Frontend.elevation := num 10;
     Frontend.slope := num 0.5;
     Frontend.landcover := num 11;
     Frontend.precip_1d := js_or (Location.precip_1d loc) (num 50);
     Frontend.precip_3d := js_or (Location.precip_3d loc) (num 120);
     Frontend.precip_7d := js_or (Location.precip_7d loc) (num 200);
     Frontend.precip_14d := js_or (Location.precip_14d loc) (num 300);
     Frontend.dis_last := num 1500;
     Frontend.dis_trend_3 := num 100;
     Frontend.dayofyear := JNum (of_int (snd day)) |}.

(** [getDay i] are the clock readings and [predictFlood i] the outcome of
    the awaited call made for the location at index [i] ([None]: the call
    is rejected, which the [catch] of that location absorbs). *)
Definition runComparison (getDay : nat -> Z * Z)
    (predictFlood : nat -> PredictionRequest -> option Backend.PredictionResponse)
    (s : State) : State :=
  let s := setIsLoading true s in
  let updatedLocations :=
    imap (fun i loc =>
            match predictFlood i (request_of (getDay i) loc) with
            | Some prediction => Location.set_prediction prediction loc
            | None => loc
            end)
         (locations s) in
  let s := setLocations updatedLocations s in
  setIsLoading false s.

(** The user's actions on the tool. *)
Inductive action : Type :=
  | AddLocation (now : string)
  | RemoveLocation (id : string)
  | UpdateLocation (id : string) (a : assignment)
  | RunComparison (getDay : nat -> Z * Z)
      (predictFlood : nat -> PredictionRequest -> option Backend.PredictionResponse).

Definition step (s : State) (a : action) : State :=
  match a with
  | AddLocation now => addLocation now s
  | RemoveLocation id => removeLocation id s
  | UpdateLocation id a => updateLocation id a s
  | RunComparison getDay predictFlood => runComparison getDay predictFlood s
  end.

Definition run (actions : list action) : State := foldl step initial actions.

End ComparisonTool.

(** ** HistoricalChart.tsx and PredictionForm.tsx, continued *)

Module Form.
Import Frontend.



(** The thirteen inputs of the form, by [name]. *)
Definition fields : list (string * (PredictionRequest -> jsval)) :=
  [("lat", lat); ("lon", lon); ("date", date); ("elevation", elevation);
   ("slope", slope); ("landcover", landcover); ("precip_1d", precip_1d);
   ("precip_3d", precip_3d); ("precip_7d", precip_7d);
   ("precip_14d", precip_14d); ("dis_last", dis_last);
   ("dis_trend_3", dis_trend_3); ("dayofyear", dayofyear)].

(** [{ ...prev, [name]: v }], seen through the thirteen fields. *)
Definition assign (name : string) (v : jsval) (prev : PredictionRequest)
  : PredictionRequest :=
  let pick (key : string) (old : jsval) : jsval :=
    if bool_decide (name = key) then v else old in
  {| lat := pick "lat" (lat prev);
     lon := pick "lon" (lon prev);
     date := pick "date" (date prev);
     elevation := pick "elevation" (elevation prev);
     slope := pick "slope" (slope prev);
     landcover := pick "landcover" (landcover prev);
     precip_1d := pick "precip_1d" (precip_1d prev);
     precip_3d := pick "precip_3d" (precip_3d prev);
     precip_7d := pick "precip_7d" (precip_7d prev);
     precip_14d := pick "precip_14d" (precip_14d prev);
     dis_last := pick "dis_last" (dis_last prev);
     dis_trend_3 := pick "dis_trend_3" (dis_trend_3 prev);
     dayofyear := pick "dayofyear" (dayofyear prev) |}.

Section Change.
(** The host's [parseFloat]. *)
Variable parseFloat : string -> number.

Definition handleChange (name value : string) (s : FormState) : FormState :=
  setFormData
    (fun prev => assign name (js_or (JNum (parseFloat value)) (JNum (Finite 0))) prev)
    s.
End Change.

Definition handleLocationSelect (lat lon : jsval) (s : FormState) : FormState :=
  setFormData
    (fun prev =>
       {| Frontend.lat := lat;
          Frontend.lon := lon;
          date := date prev;
          elevation := elevation prev;
          slope := slope prev;
          landcover := landcover prev;
          precip_1d := precip_1d prev;
          precip_3d := precip_3d prev;
          precip_7d := precip_7d prev;
          precip_14d := precip_14d prev;
          dis_last := dis_last prev;
          dis_trend_3 := dis_trend_3 prev;
          dayofyear := dayofyear prev |})
    s.

End Form.

(** ** services/api.ts *)

Module Api.

(** A decoded JSON text. *)
Module Json.
Unset Elimination Schemes.
Inductive t : Type :=
  | Null
  | Bool (b : bool)
  | Number (q : Q)
  | Str (s : string)
  | Array (items : list t)
  | Object (members : list (string * t)).
Set Elimination Schemes.
End Json.

(** ToBoolean on a decoded JSON value. *)
Definition truthy (v : Json.t) : bool :=
  match v with
  | Json.Null => false
  | Json.Bool b => b
  | Json.Number q => negb (Qeq_bool q 0)
  | Json.Str s => negb (bool_decide (s = EmptyString))
  | Json.Array _ | Json.Object _ => true
  end.

(** The read [v.message]: the outer [None] is the TypeError raised on
    [null], the inner [None] is [undefined].  Of a repeated key the decoder
    keeps the last member. *)
Definition message_of (v : Json.t) : option (option Json.t) :=
  match v with
  | Json.Null => None
  | Json.Object members =>
      Some (snd <$> List.find (fun m => bool_decide (fst m = "message"%string))
                              (reverse members))
  | _ => Some None
  end.

Record Response : Type := {
  ok : bool;
  status : Z;
  (** the decoded body; [None] when the body is not a JSON text *)
  json : option Json.t
}.

(** How an awaited call ends. *)
Inductive outcome (T : Type) : Type :=
  | Resolved (value : T)
  | ApiError (status : Z) (message : string)
  | OtherError.
Arguments Resolved {T} value.
Arguments ApiError {T} status message.
Arguments OtherError {T}.

Section HandleResponse.
(** ToString on a decoded JSON value, which the [Error] constructor applies
    to its argument; a string is its own text. *)
Variable ToString : Json.t -> string.

Definition text_of (v : Json.t) : string :=
  match v with
  | Json.Str s => s
  | _ => ToString v
  end.

Definition handleResponse (response : Response) : outcome Json.t :=
  if negb (ok response) then
    let error :=
      match json response with
      | Some body => body
      | None => Json.Object [("message"%string, Json.Str "Request failed")]
      end in
    match message_of error with
    | None => OtherError
    | Some message =>
        ApiError (status response)
          (match message with
           | Some m => if truthy m then text_of m
                       else "HTTP " +:+ pretty (status response)
           | None => "HTTP " +:+ pretty (status response)
           end)
    end
  else
    match json response with
    | Some body => Resolved body
    | None => OtherError
    end.

(** The unchecked cast of [response.json()] to the expected type. *)
Definition cast {T} (decode : Json.t -> T) (o : outcome Json.t) : outcome T :=
  match o with
  | Resolved body => Resolved (decode body)
  | ApiError status message => ApiError status message
  | OtherError => OtherError
  end.

(** [fetched] is the outcome of the awaited [fetch]: [None] when the request
    itself fails. *)
Definition predictFlood (fetched : option Response) : outcome Json.t :=
  match fetched with
  | Some response => handleResponse response
  | None => OtherError
  end.
End HandleResponse.

End Api.

(** ** App.tsx *)

Module App.
Import Frontend Types.

Record PageState : Type := {
  result : option Backend.PredictionResponse;
  isLoading : bool;
  error : option string;
  lastRequest : option PredictionRequest
}.

Definition initial : PageState :=
  {| result := None; isLoading := false; error := None; lastRequest := None |}.

Definition setResult (v : Backend.PredictionResponse) (s : PageState) : PageState :=
  {| result := Some v; isLoading := isLoading s; error := error s;
     lastRequest := lastRequest s |}.

Definition setIsLoading (b : bool) (s : PageState) : PageState :=
  {| result := result s; isLoading := b; error := error s;
     lastRequest := lastRequest s |}.

Definition setError (v : option string) (s : PageState) : PageState :=
  {| result := result s; isLoading := isLoading s; error := v;
     lastRequest := lastRequest s |}.

Definition setLastRequest (v : PredictionRequest) (s : PageState) : PageState :=
  {| result := result s; isLoading := isLoading s; error := error s;
     lastRequest := Some v |}.

Definition risk_level_text (r : Backend.RiskLevel) : string :=
  match r with
  | Backend.Low => "Low"
  | Backend.Medium => "Medium"
  | Backend.High => "High"
  end.

(** The readings of the clock taken while one prediction is handled. *)
Record Clock : Type := {
  history_id : string;
  history_timestamp : string;
  alert_id : string;
  alert_timestamp : string
}.

Section HandlePrediction.
(** [toFixed x digits] is the host's [x.toFixed(digits)] on a number. *)
Variable toFixed : number -> nat -> string.

(** [v.toFixed(digits)]; [None] is the TypeError raised when [v] is
    [undefined] or [null]. *)
Definition toFixed_of (v : jsval) (digits : nat) : option string :=
  match v with
  | JNum n => Some (toFixed n digits)
  | JUndefined | JNull => None
  end.

(** The [try] block after the awaited call has resolved; [None] is an
    exception raised on the way, with the state reached by then. *)
Definition on_resolved (clock : Clock) (data : PredictionRequest)
    (prediction : Backend.PredictionResponse) (w : PageState * localStorage)
  : option (PageState * localStorage) * (PageState * localStorage) :=
  let '(s, ls) := w in
  let s := setResult prediction s in
  let s := setLastRequest data s in
  match toFixed_of (lat data) 4, toFixed_of (lon data) 4 with
  | Some lat_text, Some lon_text =>
      let location := lat_text +:+ ", " +:+ lon_text in
      let historyEntry :=
        {| PredictionHistoryEntry.id := history_id clock;
           PredictionHistoryEntry.timestamp := history_timestamp clock;
           PredictionHistoryEntry.location := location;
           PredictionHistoryEntry.lat := lat data;
           PredictionHistoryEntry.lon := lon data;
           PredictionHistoryEntry.request := data;
           PredictionHistoryEntry.response := prediction |} in
      let historyArray := default [] (prediction_history ls) in
      let ls := setItem_prediction_history (historyArray ++ [historyEntry]) ls in
      let ls :=
        match Backend.risk_level prediction with
        | Backend.High | Backend.Medium =>
            let alert :=
              {| Alert.id := alert_id clock;
                 Alert.timestamp := alert_timestamp clock;
                 Alert.location := location;
                 Alert.lat := lat data;
                 Alert.lon := lon data;
                 Alert.riskLevel := Backend.risk_level prediction;
                 Alert.probability := Backend.flood_probability prediction;
                 Alert.message :=
                   risk_level_text (Backend.risk_level prediction)
                   +:+ " flood risk detected with "
                   +:+ toFixed (Finite (Backend.flood_probability prediction * 100)) 1
                   +:+ "% probability";
                 Alert.isRead := false |} in
            let alertsArray := default [] (flood_alerts ls) in
            setItem_flood_alerts (alert :: alertsArray) ls
        | Backend.Low => ls
        end in
      (Some (s, ls), (s, ls))
  | _, _ => (None, (s, ls))
  end.

Definition unexpected : string :=
  "An unexpected error occurred. Please check if the backend is running.".

Definition handlePrediction (clock : Clock) (data : PredictionRequest)
    (called : Api.outcome Backend.PredictionResponse)
    (w : PageState * localStorage) : PageState * localStorage :=
  let '(s, ls) := w in
  let s := setIsLoading true s in
  let s := setError None s in
  let '(s, ls) :=
    match called with
    | Api.Resolved prediction =>
        match on_resolved clock data prediction (s, ls) with
        | (Some done, _) => done
        | (None, (s, ls)) => (setError (Some unexpected) s, ls)
        end
    | Api.ApiError _ message =>
        (setError (Some ("Prediction failed: " +:+ message)) s, ls)
    | Api.OtherError => (setError (Some unexpected) s, ls)
    end in
  (setIsLoading false s, ls).
End HandlePrediction.

End App.

(** ** Example values for the frontend *)

Module Example.
Import Frontend Types.

(** The data [fillSampleData] puts in the form. *)
Definition form : PredictionRequest :=
  {| lat := JNum (Finite 24.3636); lon := JNum (Finite 88.6241);
     date := JNum (Finite 210); elevation := JNum (Finite 8.2);
     slope := JNum (Finite 0.3); landcover := JNum (Finite 11);
     precip_1d := JNum (Finite 85); precip_3d := JNum (Finite 180);
     precip_7d := JNum (Finite 320); precip_14d := JNum (Finite 450);
     dis_last := JNum (Finite 2200); dis_trend_3 := JNum (Finite 250);
     dayofyear := JNum (Finite 210) |}.

Definition response (p : Q) (r : Backend.RiskLevel) : Backend.PredictionResponse :=
  {| Backend.flood_probability := p; Backend.risk_level := r;
     Backend.is_flood_predicted := Qge_bool p 0.5;
     Backend.confidence := Qabs (p - 0.5) * 2 |}.

Definition entry (id : string) (p : Q) (r : Backend.RiskLevel)
  : PredictionHistoryEntry.t :=
  {| PredictionHistoryEntry.id := id;
     PredictionHistoryEntry.timestamp := "2025-12-03T10:00:00.000Z";
     PredictionHistoryEntry.location := "24.3636, 88.6241";
     PredictionHistoryEntry.lat := lat form;
     PredictionHistoryEntry.lon := lon form;
     PredictionHistoryEntry.request := form;
     PredictionHistoryEntry.response := response p r |}.

Definition alert (id : string) (r : Backend.RiskLevel) (read : bool) : Alert.t :=
  {| Alert.id := id;
     Alert.timestamp := "2025-12-03T10:00:00.000Z";
     Alert.location := "24.3636, 88.6241";
     Alert.lat := lat form;
     Alert.lon := lon form;
     Alert.riskLevel := r;
     Alert.probability := 0.85;
     Alert.message := "flood risk detected";
     Alert.isRead := read |}.

Definition clock : App.Clock :=
  {| App.history_id := "1764756000000";
     App.history_timestamp := "2025-12-03T10:00:00.000Z";
     App.alert_id := "1764756000001";
     App.alert_timestamp := "2025-12-03T10:00:00.001Z" |}.

End Example.

(** ** scripts/push_one_file_at_a_time.ps1 (the batched version)

    The commands the script runs are kept as a trace; what each [git]
    command answers is an input: [changed] tells whether
    [git diff --cached --quiet] reports staged changes after the [git add]
    of a file, [pushOk n] whether the push number [n] exits with 0. *)

Module PushScript.

Inductive event : Type :=
  | Add (file : string)
  | Commit (file : string)
  | Push (ok : bool).

Record state : Type := {
  pushCounter : nat;
  pushes : nat;
  trace : list event
}.

Definition initial : state := {| pushCounter := 0; pushes := 0; trace := [] |}.

Definition log (e : event) (st : state) : state :=
  {| pushCounter := pushCounter st; pushes := pushes st; trace := trace st ++ [e] |}.

Definition setPushCounter (n : nat) (st : state) : state :=
  {| pushCounter := n; pushes := pushes st; trace := trace st |}.

(** [git push origin $Branch]; the exit code comes back with the state. *)
Definition push (pushOk : nat -> bool) (st : state) : bool * state :=
  let ok := pushOk (pushes st) in
  (ok, {| pushCounter := pushCounter st; pushes := S (pushes st);
          trace := trace st ++ [Push ok] |}).

Section Script.
Variable BatchSize : Z.
Variable pushOk : nat -> bool.

(** The [foreach] over the ordered files; a failed push leaves the loop. *)
Fixpoint loop (orderedFiles : list (string * bool)) (st : state) : state :=
  match orderedFiles with
  | [] => st
  | (file, changed) :: rest =>
      let st := log (Add file) st in
      if changed then
        let st := log (Commit file) st in
        let st := setPushCounter (S (pushCounter st)) st in
        if bool_decide (BatchSize <= Z.of_nat (pushCounter st))%Z then
          let '(ok, st) := push pushOk st in
          if ok then loop rest (setPushCounter 0 st) else st
        else loop rest st
      else loop rest st
  end.

Definition script (orderedFiles : list (string * bool)) : state :=
  let st := loop orderedFiles initial in
  if bool_decide (0 < pushCounter st)%nat then snd (push pushOk st) else st.
End Script.

End PushScript.


(** ** Sample data

    The request of the end-to-end example, and a predictor whose
    classifier answers the same probability for every row. *)

Module Sample.
Import Backend.

Definition request : PredictionRequest :=
  {| lat := Finite 23.8103; lon := Finite 90.4125; date := 180;
     elevation := Finite 10.5; slope := Finite 0.5; landcover := 11;
     precip_1d := Finite 50; precip_3d := Finite 120;
     precip_7d := Finite 200; precip_14d := Finite 300;
     dis_last := Finite 1500; dis_trend_3 := Finite 100; dayofyear := 180 |}.

Definition body : json_object :=
  [("lat", Finite 23.8103); ("lon", Finite 90.4125); ("date", Finite 180);
   ("elevation", Finite 10.5); ("slope", Finite 0.5);
   ("landcover", Finite 11); ("precip_1d", Finite 50);
   ("precip_3d", Finite 120); ("precip_7d", Finite 200);
   ("precip_14d", Finite 300); ("dis_last", Finite 1500);
   ("dis_trend_3", Finite 100); ("dayofyear", Finite 180)].

Definition constant_model (p : Q) : Predictor :=
  {| model_loaded := true;
     feature_names := model_feature_names;
     predict_proba := fun _ => Ok (1 - p, p) |}.

End Sample.

(** * Properties *)

(** ** Comparisons *)



Lemma Qge_bool_iff (x y : Q) : Qge_bool x y = true <-> y <= x.
Proof. unfold Qge_bool. apply Qle_bool_iff. Qed.

(** ** The risk classifier *)

Section RiskClassifier.
Import Backend.


(** C2.  At probability 0.65 the backend classifier answers Medium, although
    0.65 >= 0.6; the gauge of the frontend, which cuts at 0.6, already shows
    the high-risk colour there. *)
Theorem calculate_risk_level_065 :
  _calculate_risk_level 0.65 = Medium
  /\ 0.6 <= 0.65
  /\ Frontend.getGaugeColor 0.65 = "var(--risk-high)"%string.
Proof.
  split; [reflexivity |]. split; [| reflexivity].
  unfold Qle; simpl; lia.
Qed.

End RiskClassifier.

(** ** The predictor and the endpoint *)

Section Prediction.
Import Backend.

(** [predict] answers exactly when the classifier does, and the answer is
    determined by the flood probability. *)
Lemma predict_Ok (self : Predictor) (request : PredictionRequest)
    (resp : PredictionResponse) :
  predict self request = Ok resp <->
  exists p0 p,
    predict_proba self (_prepare_input self request) = Ok (p0, p)
    /\ resp = {| flood_probability := p;
                 risk_level := _calculate_risk_level p;
                 is_flood_predicted := Qge_bool p 0.5;
                 confidence := Qabs (p - 0.5) * 2 |}.
Proof.
  unfold predict.
  destruct (predict_proba self (_prepare_input self request)) as [[p0 p]|e];
    simpl; split.
  - intros [= <-]. eauto.
  - intros (q0 & q & [= -> ->] & ->). reflexivity.
  - discriminate.
  - intros (? & ? & [=] & _).
Qed.



(** When the model is not loaded the handler raises [HTTPException(503)]
    inside its own [try] block; the [except Exception] clause catches it
    and raises [HTTPException(500)] in its place. *)
Lemma predict_flood_not_loaded (str : exn -> string) (predictor : Predictor)
    (request : PredictionRequest) :
  model_loaded predictor = false ->
  predict_flood str predictor request
  = Raise (HTTPException 500 (str (HTTPException 503 "Model not loaded"))).
Proof. intros H. unfold predict_flood. rewrite H. reflexivity. Qed.

(** C3.  With [model_loaded = false] the answer to POST /predict carries
    status 500, whatever the request, the feature names and the classifier
    are (so the classifier is not consulted); the 503 raised by the guard
    does not reach the client. *)
Theorem predict_flood_not_loaded_status (str : exn -> string)
    (names : list string) (proba : list number -> result (Q * Q))
    (request : PredictionRequest) :
  http_status
    (predict_flood str
       {| model_loaded := false; feature_names := names; predict_proba := proba |}
       request) = 500%Z
  /\ http_status
       (predict_flood str
          {| model_loaded := false; feature_names := names; predict_proba := proba |}
          request) <> 503%Z.
Proof.
  rewrite predict_flood_not_loaded by reflexivity. simpl. split; [reflexivity | lia].
Qed.



(** C5.  In every response of [predict], [is_flood_predicted] holds exactly
    when the flood probability is at least 0.5.  The flag is not a function
    of the risk tier: probabilities 0.4 and 0.55 are both Medium, the first
    with the flag off and the second with the flag on. *)
Theorem predict_is_flood_predicted (self : Predictor)
    (request : PredictionRequest) (resp : PredictionResponse) :
  predict self request = Ok resp ->
  (is_flood_predicted resp = true <-> 0.5 <= flood_probability resp)
  /\ (exists resp_off,
        predict (Sample.constant_model 0.4) request = Ok resp_off
        /\ flood_probability resp_off = 0.4
        /\ risk_level resp_off = Medium
        /\ is_flood_predicted resp_off = false)
  /\ (exists resp_on,
        predict (Sample.constant_model 0.55) request = Ok resp_on
        /\ flood_probability resp_on = 0.55
        /\ risk_level resp_on = Medium
        /\ is_flood_predicted resp_on = true).
Proof.
  intros Hresp. apply predict_Ok in Hresp as (p0 & p & _ & ->). simpl.
  split; [apply Qge_bool_iff |].
  split; eexists; (split; [reflexivity |]); repeat split.
Qed.

Lemma predict_is_flood_predicted_witness :
  is_flood_predicted
    {| flood_probability := 0.85; risk_level := High;
       is_flood_predicted := true; confidence := Qabs (0.85 - 0.5) * 2 |} = true
  <-> 0.5 <= 0.85.
Proof.
  apply (predict_is_flood_predicted (Sample.constant_model 0.85) Sample.request).
  reflexivity.
Defined.

End Prediction.

(** ** The feature assembler *)

Section FeatureAssembler.
Import Backend.

Lemma sanitize_cell (v : number) :
  fillna (Finite 0.0) (replace_inf_with_nan v)
  = if is_finite v then v else Finite 0.0.
Proof. destruct v; reflexivity. Qed.


Lemma prepare_input_length (self : Predictor) (request : PredictionRequest) :
  length (_prepare_input self request) = length (feature_names self).
Proof. unfold _prepare_input, DataFrame. by rewrite !length_fmap. Qed.

Lemma prepare_input_lookup (self : Predictor) (request : PredictionRequest)
    (i : nat) (name : string) :
  feature_names self !! i = Some name ->
  _prepare_input self request !! i
  = Some (fillna (Finite 0.0)
            (replace_inf_with_nan (default NaN (request_data request !! name)))).
Proof.
  intros Hname. unfold _prepare_input, DataFrame.
  by rewrite !list_lookup_fmap, Hname.
Qed.

(** The row assembled for the documented feature order. *)
Lemma prepare_input_model_row (self : Predictor) (request : PredictionRequest) :
  feature_names self = model_feature_names ->
  _prepare_input self request
  = (fun v => if is_finite v then v else Finite 0.0) <$>
      [lat request; lon request; of_int (date request); elevation request;
       slope request; of_int (landcover request); precip_1d request;
       precip_3d request; precip_7d request; precip_14d request;
       dis_last request; dis_trend_3 request; of_int (dayofyear request)].
Proof.
  intros Hnames. unfold _prepare_input. rewrite Hnames.
  assert (Hrow : DataFrame (request_data request) model_feature_names
                 = [lat request; lon request; of_int (date request);
                    elevation request; slope request;
                    of_int (landcover request); precip_1d request;
                    precip_3d request; precip_7d request; precip_14d request;
                    dis_last request; dis_trend_3 request;
                    of_int (dayofyear request)])
    by (vm_compute; reflexivity).
  rewrite Hrow. cbn [fmap list_fmap].
  by rewrite !sanitize_cell.
Qed.

Lemma json_loads_Permutation (body body' : json_object) :
  NoDup body.*1 -> body' ≡ₚ body -> json_loads body' = json_loads body.
Proof.
  intros Hnodup Hperm. unfold json_loads. apply list_to_map_proper.
  - by rewrite reverse_Permutation, Hperm.
  - by rewrite !reverse_Permutation.
Qed.

(** C1.  For a request that passes validation, the assembled row has one
    cell for each name of [feature_names] (13 for the documented list), and
    cell [i] holds the request's value for name [i] (its sanitised value,
    which is the value itself whenever that is finite).  Sending the members
    of the request object in another order yields the same request, hence
    the same row. *)
Theorem prepare_input_column_order (self : Predictor) (body : json_object)
    (request : PredictionRequest) :
  validate body = Some request ->
  length (_prepare_input self request) = length (feature_names self)
  /\ length model_feature_names = 13%nat
  /\ (forall i name,
        feature_names self !! i = Some name ->
        _prepare_input self request !! i
        = Some (fillna (Finite 0.0)
                  (replace_inf_with_nan (default NaN (request_data request !! name)))))
  /\ (forall i name v,
        feature_names self !! i = Some name ->
        request_data request !! name = Some v ->
        is_finite v = true ->
        _prepare_input self request !! i = Some v)
  /\ (feature_names self = model_feature_names ->
      _prepare_input self request
      = (fun v => if is_finite v then v else Finite 0.0) <$>
          [lat request; lon request; of_int (date request); elevation request;
           slope request; of_int (landcover request); precip_1d request;
           precip_3d request; precip_7d request; precip_14d request;
           dis_last request; dis_trend_3 request; of_int (dayofyear request)])
  /\ (forall body',
        NoDup body.*1 ->
        body' ≡ₚ body ->
        exists request',
          validate body' = Some request'
          /\ _prepare_input self request' = _prepare_input self request).
Proof.
  intros Hvalid.
  split; [apply prepare_input_length |].
  split; [reflexivity |].
  split; [intros i name; apply prepare_input_lookup |].
  split.
  { intros i name v Hname Hv Hfin.
    rewrite (prepare_input_lookup _ _ _ _ Hname), Hv, sanitize_cell.
    simpl. by rewrite Hfin. }
  split; [apply prepare_input_model_row |].
  intros body' Hnodup Hperm. exists request. split; [| reflexivity].
  rewrite <- Hvalid. unfold validate.
  by rewrite (json_loads_Permutation body body' Hnodup Hperm).
Qed.

Lemma prepare_input_column_order_witness :
  length (_prepare_input (Sample.constant_model 0.85) Sample.request) = 13%nat.
Proof.
  apply (prepare_input_column_order (Sample.constant_model 0.85) Sample.body
           Sample.request).
  vm_compute. reflexivity.
Defined.



End FeatureAssembler.

(** ** Live aggregation *)

Section LiveAggregation.
Import Weather.

Lemma Qsum_app (l1 l2 : list Q) : Qsum (l1 ++ l2) == Qsum l1 + Qsum l2.
Proof.
  induction l1 as [|x l1 IH].
  - change (Qsum ([] ++ l2)) with (Qsum l2).
    change (Qsum []) with 0. by rewrite Qplus_0_l.
  - change (Qsum ((x :: l1) ++ l2)) with (x + Qsum (l1 ++ l2)).
    change (Qsum (x :: l1)) with (x + Qsum l1).
    by rewrite IH, Qplus_assoc.
Qed.

Lemma Qsum_replicate_0 (k : nat) : Qsum (replicate k 0) == 0.
Proof.
  induction k as [|k IH].
  - reflexivity.
  - change (Qsum (replicate (S k) 0)) with (0 + Qsum (replicate k 0)).
    by rewrite IH.
Qed.

(** Leading zero days do not change the sum of what is left after a drop. *)
Lemma Qsum_drop_zeros (k j : nat) (l : list Q) :
  Qsum (drop j (replicate k 0 ++ l)) == Qsum (drop (j - k) l).
Proof.
  rewrite drop_app, drop_replicate, length_replicate, Qsum_app.
  by rewrite Qsum_replicate_0, Qplus_0_l.
Qed.

Lemma window_sum_trailing (n : nat) (days : list Q) :
  window_sum n days == Qsum (trailing n days).
Proof.
  unfold window_sum, trailing, pad_history.
  rewrite Qsum_drop_zeros, length_app, length_replicate.
  replace (n - length days + length days - n - (n - length days))%nat
    with (length days - n)%nat by lia.
  reflexivity.
Qed.

Lemma window_sum_short (n : nat) (days : list Q) :
  (length days <= n)%nat -> window_sum n days == Qsum days.
Proof.
  intros Hshort. rewrite window_sum_trailing. unfold trailing.
  replace (length days - n)%nat with 0%nat by lia. reflexivity.
Qed.

Lemma window_sum_leading_zeros (n k : nat) (days : list Q) :
  window_sum n (replicate k 0 ++ days) == window_sum n days.
Proof.
  rewrite !window_sum_trailing. unfold trailing.
  rewrite Qsum_drop_zeros, length_app, length_replicate.
  destruct (decide (n <= length days)%nat) as [Hle | Hgt].
  - replace (k + length days - n - k)%nat with (length days - n)%nat by lia.
    reflexivity.
  - replace (k + length days - n - k)%nat with 0%nat by lia.
    replace (length days - n)%nat with 0%nat by lia.
    reflexivity.
Qed.

Lemma last_day_is_window_1 (days : list Q) :
  default 0 (last days) == window_sum 1 days.
Proof.
  rewrite window_sum_trailing. unfold trailing.
  destruct days as [|x days _] using rev_ind.
  - reflexivity.
  - rewrite last_snoc, length_app. cbn [length default].
    replace (length days + 1 - 1)%nat with (length days) by lia.
    rewrite drop_app_length. change (Qsum [x]) with (x + 0).
    unfold id. by rewrite Qplus_0_r.
Qed.

(** C7.  For a 14-day series, most recent last, live aggregation answers
    [d13], [d11 + d12 + d13], the sum of [d7 .. d13] and the sum of
    [d0 .. d13].  For a series of any length the function answers (it is
    total): each window is the sum of the trailing days that exist, a
    history no longer than the window is summed whole, and writing the
    missing leading days out as zeros changes nothing. *)
Theorem live_aggregation_windows
    (elev d0 d1 d2 d3 d4 d5 d6 d7 d8 d9 d10 d11 d12 d13 : Q)
    (days : list Q) (n k : nat) :
  (let r := live_aggregation elev
              [d0; d1; d2; d3; d4; d5; d6; d7; d8; d9; d10; d11; d12; d13] in
   precip_1d r == d13
   /\ precip_3d r == d11 + d12 + d13
   /\ precip_7d r == d7 + d8 + d9 + d10 + d11 + d12 + d13
   /\ precip_14d r ==
        d0 + d1 + d2 + d3 + d4 + d5 + d6 + d7 + d8 + d9 + d10 + d11 + d12 + d13)
  /\ (let r := live_aggregation elev days in
      elevation r = elev
      /\ precip_1d r == window_sum 1 days
      /\ precip_3d r == Qsum (trailing 3 days)
      /\ precip_7d r == Qsum (trailing 7 days)
      /\ precip_14d r == Qsum (trailing 14 days))
  /\ ((length days <= n)%nat -> window_sum n days == Qsum days)
  /\ window_sum n (replicate k 0 ++ days) == window_sum n days.
Proof.
  split.
  { cbn zeta. cbn [live_aggregation precip_1d precip_3d precip_7d precip_14d].
    rewrite !window_sum_trailing. unfold trailing.
    cbn [length Nat.sub drop last default Qsum foldr].
    repeat split; lra. }
  split.
  { cbn zeta. cbn [live_aggregation elevation precip_1d precip_3d precip_7d precip_14d].
    split; [reflexivity |]. split; [apply last_day_is_window_1 |].
    repeat split; apply window_sum_trailing. }
  split; [apply window_sum_short | apply window_sum_leading_zeros].
Qed.

Lemma live_aggregation_windows_witness :
  window_sum 7 [1; 2; 3] == Qsum [1; 2; 3].
Proof.
  refine (proj1 (proj2 (proj2
            (live_aggregation_windows 0 0 0 0 0 0 0 0 0 0 0 0 0 0 0 [1; 2; 3] 7 0))) _).
  simpl. lia.
Defined.

End LiveAggregation.

(** ** Historical series *)

Section HistoricalSeries.
Import Weather.

Lemma history_window_length (today : Z) : length (history_window today) = 30%nat.
Proof. unfold history_window. by rewrite length_seqZ. Qed.

Lemma history_window_lookup (today : Z) (i : nat) :
  (i < 30)%nat -> history_window today !! i = Some (today - 29 + Z.of_nat i)%Z.
Proof. intros Hi. unfold history_window. apply lookup_seqZ_lt. lia. Qed.

(** A provider that knows fewer than 30 days misses a day of the window. *)
Lemma history_window_gap (provider : gmap Z WeatherSample.t) (today : Z) :
  (size provider < 30)%nat ->
  exists i, (i < 30)%nat /\ provider !! (today - 29 + Z.of_nat i)%Z = None.
Proof.
  intros Hsize.
  destruct (decide (Forall (fun d => is_Some (provider !! d)) (history_window today)))
    as [Hall | Hgap].
  - exfalso.
    assert (Hsub : list_to_set (C := gset Z) (history_window today) ⊆ dom provider).
    { intros d Hd. apply elem_of_list_to_set in Hd. apply elem_of_dom.
      rewrite Forall_forall in Hall. by apply Hall. }
    apply subseteq_size in Hsub.
    rewrite size_list_to_set in Hsub by apply NoDup_seqZ.
    rewrite size_dom, history_window_length in Hsub. lia.
  - apply not_Forall_Exists in Hgap; [| apply _].
    apply Exists_exists in Hgap as (d & Hd & Hnone).
    apply list_elem_of_lookup_1 in Hd as [i Hi].
    assert (Hlt : (i < 30)%nat).
    { rewrite <- (history_window_length today). by eapply lookup_lt_Some. }
    exists i. split; [exact Hlt |].
    rewrite history_window_lookup in Hi by exact Hlt. injection Hi as <-.
    by apply eq_None_not_Some.
Qed.

(** C8.  The answer to a history request always has 30 dates, 30
    precipitation cells and 30 temperature cells; entry [i] belongs to day
    [today - 29 + i], so index 0 is the oldest day and the days are
    consecutive; a day the provider has no sample for is kept and flagged
    ([None]) in both value columns, and a provider with fewer than 30 days
    yields at least one flagged entry.  The chart built from the answer by
    [HistoricalChart] has the same 30 entries in the same order. *)
Theorem historical_series_30 (isoformat : Z -> string)
    (provider : gmap Z WeatherSample.t) (today : Z) :
  let r := historical_series isoformat provider today in
  let chart := Frontend.chartData (dates r)
                 (Frontend.of_json_cell <$> precipitation r)
                 (Frontend.of_json_cell <$> temperature r) in
  length (dates r) = 30%nat
  /\ length (precipitation r) = 30%nat
  /\ length (temperature r) = 30%nat
  /\ (forall i, (i < 30)%nat ->
        let day := (today - 29 + Z.of_nat i)%Z in
        dates r !! i = Some (isoformat day)
        /\ precipitation r !! i = Some (WeatherSample.precipitation <$> provider !! day)
        /\ temperature r !! i = Some (WeatherSample.max_temperature <$> provider !! day)
        /\ chart !! i
           = Some {| Frontend.ChartData.rawDate := isoformat day;
                     Frontend.ChartData.precipitation :=
                       Frontend.of_json_cell (WeatherSample.precipitation <$> provider !! day);
                     Frontend.ChartData.temperature :=
                       Frontend.of_json_cell (WeatherSample.max_temperature <$> provider !! day) |})
  /\ ((size provider < 30)%nat ->
      exists i, (i < 30)%nat
                /\ precipitation r !! i = Some None
                /\ temperature r !! i = Some None)
  /\ length chart = 30%nat.
Proof.
  intros r chart.
  assert (Hcells : forall i, (i < 30)%nat ->
            let day := (today - 29 + Z.of_nat i)%Z in
            dates r !! i = Some (isoformat day)
            /\ precipitation r !! i = Some (WeatherSample.precipitation <$> provider !! day)
            /\ temperature r !! i = Some (WeatherSample.max_temperature <$> provider !! day)).
  { intros i Hi day. subst r. unfold historical_series.
    cbn [dates precipitation temperature].
    rewrite !list_lookup_fmap, history_window_lookup by exact Hi.
    done. }
  subst r chart. unfold historical_series in *.
  cbn [dates precipitation temperature] in *.
  rewrite !length_fmap, history_window_length.
  split; [reflexivity |]. split; [reflexivity |]. split; [reflexivity |].
  split.
  { intros i Hi. cbn zeta. destruct (Hcells i Hi) as (Hd & Hp & Ht).
    repeat (split; [assumption |]).
    unfold Frontend.chartData, Frontend.index.
    rewrite list_lookup_imap, Hd.
    rewrite !(list_lookup_fmap Frontend.of_json_cell), Hp, Ht. reflexivity. }
  split.
  { intros Hsize. destruct (history_window_gap provider today Hsize) as (i & Hi & Hnone).
    exists i. destruct (Hcells i Hi) as (_ & Hp & Ht).
    rewrite Hp, Ht, Hnone. done. }
  unfold Frontend.chartData. by rewrite length_imap, length_fmap, history_window_length.
Qed.

Lemma historical_series_30_witness :
  exists i, (i < 30)%nat
            /\ precipitation
                 (historical_series (fun _ => "day"%string) ∅ 19783) !! i = Some None
            /\ temperature
                 (historical_series (fun _ => "day"%string) ∅ 19783) !! i = Some None.
Proof.
  refine (proj1 (proj2 (proj2 (proj2 (proj2
            (historical_series_30 (fun _ => "day"%string) ∅ 19783))))) _).
  vm_compute. lia.
Defined.

End HistoricalSeries.

(** ** The prediction form *)

Section PredictionForm.
Import Frontend.






(** In a UTC host the day of the year counts from 1 on the first of
    January; 2024 is a leap year. *)
Example dayOfYear_UTC :
  dayOfYear (H := UTC.host) "2024-01-01" = of_int 1
  /\ dayOfYear (H := UTC.host) "2024-03-01" = of_int 61
  /\ dayOfYear (H := UTC.host) "2023-12-31" = of_int 365
  /\ dayOfYear (H := UTC.host) "2024-12-31" = of_int 366
  /\ dayOfYear (H := UTC.host) "yesterday" = NaN.
Proof. repeat split; vm_compute; reflexivity. Qed.


(** A rejected fetch leaves the form data alone and raises the alert. *)
Lemma fetchLiveData_failure (s : FormState) :
  formData (fetchLiveData None s) = formData s
  /\ isFetchingWeather (fetchLiveData None s) = false
  /\ alerts (fetchLiveData None s)
     = alerts s ++ ["Failed to fetch live weather data. Please try again."%string].
Proof. repeat split. Qed.

End PredictionForm.

(** ** More on the endpoint and the predictor *)

Section EndpointMore.
Import Backend.

Lemma predict_flood_loaded (str : exn -> string) (predictor : Predictor)
    (request : PredictionRequest) :
  model_loaded predictor = true ->
  predict_flood str predictor request
  = try_except_Exception (predict predictor request)
      (fun e => Raise (HTTPException 500 (str e))).
Proof.
  intros H. unfold predict_flood. rewrite H. cbn [negb].
  by destruct (predict predictor request).
Qed.

(** X1.  POST /predict answers 200 exactly when the model is loaded and the
    classifier returns, and the body is then the response of [predict]; in
    every other case the status is 500. *)
Theorem predict_flood_status (str : exn -> string) (predictor : Predictor)
    (request : PredictionRequest) :
  (http_status (predict_flood str predictor request) = 200%Z
   <-> model_loaded predictor = true
       /\ exists resp, predict predictor request = Ok resp)
  /\ (forall resp,
        model_loaded predictor = true ->
        predict predictor request = Ok resp ->
        predict_flood str predictor request = Ok resp)
  /\ (http_status (predict_flood str predictor request) = 200%Z
      \/ http_status (predict_flood str predictor request) = 500%Z).
Proof.
  destruct (model_loaded predictor) eqn:Hloaded.
  - rewrite predict_flood_loaded by exact Hloaded.
    destruct (predict predictor request) as [resp | e]; cbn.
    + repeat split; eauto.
    + split; [| split].
      * split; [destruct e; discriminate | intros (_ & resp & [=])].
      * intros resp _ [=].
      * right. by destruct e.
  - rewrite predict_flood_not_loaded by exact Hloaded. cbn.
    split; [| split].
    + split; [discriminate | intros ([=] & _)].
    + intros resp [=].
    + by right.
Qed.



Lemma request_data_None (request : PredictionRequest) (name : string) :
  name ∉ model_feature_names -> request_data request !! name = None.
Proof.
  intros Hname. unfold request_data. apply not_elem_of_list_to_map_1.
  exact Hname.
Qed.

(** X3.  A feature name that is not a field of the request does not make
    the assembler fail: its cell is 0.0. *)
Theorem prepare_input_unknown_name (self : Predictor)
    (request : PredictionRequest) (i : nat) (name : string) :
  feature_names self !! i = Some name ->
  name ∉ model_feature_names ->
  _prepare_input self request !! i = Some (Finite 0.0).
Proof.
  intros Hi Hname.
  rewrite (prepare_input_lookup _ _ _ _ Hi), request_data_None by exact Hname.
  reflexivity.
Qed.

Lemma prepare_input_unknown_name_witness :
  _prepare_input
    {| model_loaded := true; feature_names := ["lat"; "rainfall"]%string;
       predict_proba := fun _ => Ok (0.5, 0.5) |}
    Sample.request !! 1%nat = Some (Finite 0.0).
Proof.
  apply (prepare_input_unknown_name _ Sample.request 1 "rainfall").
  - reflexivity.
  - compute_done.
Defined.

End EndpointMore.

(** ** Request validation *)

Section Validation.
Import Backend.




End Validation.

(** ** The alert centre *)

Section AlertCenterProperties.
Import Types AlertCenter.

Lemma List_filter_sublist {A} (f : A -> bool) (l : list A) :
  List.filter f l `sublist_of` l.
Proof.
  induction l as [|x l IH]; cbn [List.filter].
  - constructor.
  - destruct (f x); by constructor.
Qed.

Lemma List_filter_elem_of {A} (f : A -> bool) (l : list A) (x : A) :
  x ∈ List.filter f l <-> x ∈ l /\ f x = true.
Proof. rewrite !list_elem_of_In. apply filter_In. Qed.

Lemma unread_set_isRead (l : list Alert.t) :
  unread (map (Alert.set_isRead true) l) = [].
Proof. induction l as [|a l IH]; [reflexivity | exact IH]. Qed.

(** X5.  "Mark all read" leaves no unread alert: the badge count is 0.  The
    list keeps its length and order, every alert changes in its [isRead]
    flag only, and the stored list is the displayed one as JSON renders
    it; the stored prediction history is not touched. *)
Theorem markAllAsRead_effect (s : State) (ls : localStorage) :
  let w := markAllAsRead (s, ls) in
  unreadCount (fst w) = 0%nat
  /\ length (alerts (fst w)) = length (alerts s)
  /\ (forall i a, alerts s !! i = Some a ->
        alerts (fst w) !! i = Some (Alert.set_isRead true a))
  /\ isOpen (fst w) = isOpen s
  /\ filter (fst w) = filter s
  /\ flood_alerts (snd w) = Some (Alert.roundtrip <$> alerts (fst w))
  /\ prediction_history (snd w) = prediction_history ls.
Proof.
  cbn. unfold unreadCount. cbn [alerts].
  rewrite unread_set_isRead, length_map.
  repeat split. intros i a Hi.
  change (map ?f ?l) with (f <$> l). by rewrite list_lookup_fmap, Hi.
Qed.

Lemma unread_markRead_count (id : string) (l : list Alert.t) :
  (length (unread (map (markRead_if id) l))
   + length (List.filter (fun a => bool_decide (Alert.id a = id)) (unread l))
   = length (unread l))%nat.
Proof.
  induction l as [|a l IH]; [reflexivity |].
  unfold unread in *. cbn [map List.filter].
  unfold markRead_if at 1.
  destruct (bool_decide (Alert.id a = id)) eqn:Hid;
    destruct (Alert.isRead a) eqn:Hread;
    cbn [Alert.set_isRead Alert.isRead negb]; rewrite ?Hread; cbn [negb List.filter];
    rewrite ?Hid; cbn [length];
    first [exact IH | rewrite Nat.add_succ_r; by rewrite IH | cbn [Nat.add]; by rewrite IH].
Qed.

(** X6.  Marking one alert read touches the alerts that carry the given id
    and no other: the list keeps its length and order, each alert with that
    id becomes read, every other alert is unchanged, and the badge count
    drops by the number of unread alerts that carried the id.  Doing it
    twice is the same as doing it once. *)
Theorem markAsRead_effect (id : string) (s : State) (ls : localStorage) :
  let w := markAsRead id (s, ls) in
  length (alerts (fst w)) = length (alerts s)
  /\ (forall i a, alerts s !! i = Some a ->
        alerts (fst w) !! i
        = Some (if bool_decide (Alert.id a = id) then Alert.set_isRead true a else a))
  /\ (forall a, a ∈ alerts (fst w) -> Alert.id a = id -> Alert.isRead a = true)
  /\ (unreadCount (fst w)
      + length (List.filter (fun a => bool_decide (Alert.id a = id)) (unread (alerts s)))
      = unreadCount s)%nat
  /\ flood_alerts (snd w) = Some (Alert.roundtrip <$> alerts (fst w))
  /\ markAsRead id w = w.
Proof.
  cbn zeta. unfold markAsRead. cbn [fst snd alerts setAlerts].
  split; [by rewrite length_map |].
  split.
  { intros i a Hi. change (map ?f ?l) with (f <$> l).
    by rewrite list_lookup_fmap, Hi. }
  split.
  { intros a Ha Hid. change (map ?f ?l) with (f <$> l) in Ha.
    apply list_elem_of_fmap in Ha as (b & -> & _).
    unfold markRead_if in *. destruct (bool_decide (Alert.id b = id)) eqn:Hb.
    - reflexivity.
    - apply bool_decide_eq_false in Hb. by destruct Hb. }
  split; [apply unread_markRead_count |].
  split; [reflexivity |].
  assert (Hidem : map (markRead_if id) (map (markRead_if id) (alerts s))
                  = map (markRead_if id) (alerts s)).
  { rewrite map_map. apply map_ext. intros a. unfold markRead_if.
    destruct (bool_decide (Alert.id a = id)) eqn:Ha; cbn [Alert.set_isRead Alert.id];
      by rewrite Ha. }
  unfold setItem_flood_alerts. cbn [prediction_history flood_alerts isOpen filter].
  by rewrite Hidem.
Qed.

Lemma unread_filter_le (f : Alert.t -> bool) (l : list Alert.t) :
  (length (unread (List.filter f l)) <= length (unread l))%nat.
Proof.
  induction l as [|a l IH]; [reflexivity |].
  unfold unread in *. cbn [List.filter].
  destruct (f a); cbn [List.filter]; destruct (negb (Alert.isRead a));
    cbn [length]; lia.
Qed.

(** X7.  Deleting an alert removes every alert that carries the given id and
    nothing else: what is left are the other alerts, in their old order.
    Deleting commutes with marking read. *)
Theorem deleteAlert_effect (id id' : string) (s : State) (ls : localStorage) :
  let w := deleteAlert id (s, ls) in
  (forall a, a ∈ alerts (fst w) <-> a ∈ alerts s /\ Alert.id a <> id)
  /\ alerts (fst w) `sublist_of` alerts s
  /\ (unreadCount (fst w) <= unreadCount s)%nat
  /\ flood_alerts (snd w) = Some (Alert.roundtrip <$> alerts (fst w))
  /\ deleteAlert id (markAsRead id' (s, ls)) = markAsRead id' (deleteAlert id (s, ls)).
Proof.
  cbn zeta. unfold deleteAlert, markAsRead. cbn [fst snd alerts setAlerts].
  split.
  { intros a. rewrite List_filter_elem_of, negb_true_iff, bool_decide_eq_false.
    reflexivity. }
  split; [apply List_filter_sublist |].
  split.
  { unfold unreadCount. cbn [alerts setAlerts]. apply unread_filter_le. }
  split; [reflexivity |].
  assert (Hcomm :
    List.filter (fun a => negb (bool_decide (Alert.id a = id)))
      (map (markRead_if id') (alerts s))
    = map (markRead_if id')
        (List.filter (fun a => negb (bool_decide (Alert.id a = id))) (alerts s))).
  { induction (alerts s) as [|a l IH]; [reflexivity |].
    cbn [map List.filter].
    assert (Hsame : Alert.id (markRead_if id' a) = Alert.id a)
      by (unfold markRead_if; by destruct (bool_decide (Alert.id a = id'))).
    rewrite Hsame. destruct (bool_decide (Alert.id a = id)); cbn [negb map];
      by rewrite IH. }
  unfold setItem_flood_alerts.
  cbn [prediction_history flood_alerts isOpen filter].
  by rewrite Hcomm.
Qed.

Lemma level_partition (l : list Alert.t) :
  (length (List.filter (fun a => bool_decide (Alert.riskLevel a = Backend.Low)) l)
   + length (List.filter (fun a => bool_decide (Alert.riskLevel a = Backend.Medium)) l)
   + length (List.filter (fun a => bool_decide (Alert.riskLevel a = Backend.High)) l)
   = length l)%nat.
Proof.
  induction l as [|a l IH]; [reflexivity |].
  cbn [List.filter].
  destruct (Alert.riskLevel a); repeat case_bool_decide; try congruence;
    cbn [length]; lia.
Qed.

(** X8.  The three level filters split the alerts: an alert is shown under
    "all" and under the filter of its own level and under no other, so the
    three filtered lists add up to the whole list. *)
Theorem filteredAlerts_partition (s : State) :
  filteredAlerts (setFilter all s) = alerts s
  /\ (forall r a,
        a ∈ filteredAlerts (setFilter (level r) s)
        <-> a ∈ alerts s /\ Alert.riskLevel a = r)
  /\ (forall r, filteredAlerts (setFilter (level r) s) `sublist_of` alerts s)
  /\ (length (filteredAlerts (setFilter (level Backend.Low) s))
      + length (filteredAlerts (setFilter (level Backend.Medium) s))
      + length (filteredAlerts (setFilter (level Backend.High) s))
      = length (alerts s))%nat.
Proof.
  unfold filteredAlerts. cbn [setFilter filter alerts].
  split; [reflexivity |].
  split; [intros r a; by rewrite List_filter_elem_of, bool_decide_eq_true |].
  split; [intros r; apply List_filter_sublist |].
  apply level_partition.
Qed.

End AlertCenterProperties.

(** ** The dashboard *)

Section DashboardProperties.
Import Types Dashboard.

Lemma count_level_partition (predictions : list PredictionHistoryEntry.t) :
  (count_level Backend.High predictions + count_level Backend.Medium predictions
   + count_level Backend.Low predictions = length predictions)%nat.
Proof.
  unfold count_level. induction predictions as [|p l IH]; [reflexivity |].
  cbn [List.filter].
  destruct (Backend.risk_level (PredictionHistoryEntry.response p));
    repeat case_bool_decide; try congruence; cbn [length]; lia.
Qed.

(** X9.  The three tier counters of the dashboard add up to the total
    number of stored predictions, which is the length of the stored history
    (0 when nothing is stored); the bars of the distribution chart carry the
    same three counters. *)
Theorem dashboard_counts (ls : localStorage) :
  let stats := load ls in
  (highRiskCount stats + mediumRiskCount stats + lowRiskCount stats
   = totalPredictions stats)%nat
  /\ totalPredictions stats = length (default [] (prediction_history ls))
  /\ (riskDistribution stats).*1.*2
     = [lowRiskCount stats; mediumRiskCount stats; highRiskCount stats]
  /\ (prediction_history ls = None -> stats = initial).
Proof.
  cbn zeta. unfold load. destruct (prediction_history ls) as [predictions|].
  - cbn [totalPredictions highRiskCount mediumRiskCount lowRiskCount default id].
    split; [apply count_level_partition |]. repeat split. discriminate.
  - repeat split.
Qed.




Lemma slice_last_length {A} (n : nat) (xs : list A) :
  length (slice_last n xs) = (length xs `min` n)%nat.
Proof. unfold slice_last. rewrite length_drop. lia. Qed.

Lemma slice_last_lookup {A} (n : nat) (xs : list A) (i : nat) :
  slice_last n xs !! i = xs !! (length xs - n + i)%nat.
Proof. unfold slice_last. apply lookup_drop. Qed.

(** X11.  The list of recent predictions holds the last ten stored
    predictions (all of them when there are fewer), newest first: its entry
    [i] is the stored entry [i] places from the end. *)
Theorem dashboard_recent (ls : localStorage)
    (predictions : list PredictionHistoryEntry.t) :
  prediction_history ls = Some predictions ->
  let recent := recentPredictions (load ls) in
  length recent = (length predictions `min` 10)%nat
  /\ (forall i, (i < length recent)%nat ->
        recent !! i = predictions !! (length predictions - 1 - i)%nat)
  /\ (forall e, e ∈ recent -> e ∈ predictions).
Proof.
  intros Hls. unfold load. rewrite Hls. cbn [recentPredictions].
  assert (Hlen : length (reverse (slice_last 10 predictions))
                 = (length predictions `min` 10)%nat)
    by (by rewrite length_reverse, slice_last_length).
  split; [exact Hlen |]. split.
  - intros i Hi. rewrite Hlen in Hi.
    rewrite reverse_lookup by (rewrite slice_last_length; lia).
    rewrite slice_last_lookup, slice_last_length. f_equal. lia.
  - intros e He. rewrite elem_of_reverse in He.
    apply list_elem_of_lookup_1 in He as [i Hi].
    rewrite slice_last_lookup in Hi. by eapply list_elem_of_lookup_2.
Qed.

Lemma dashboard_recent_witness :
  recentPredictions
    (load {| prediction_history :=
               Some [Example.entry "1" 0.2 Backend.Low;
                     Example.entry "2" 0.85 Backend.High];
             flood_alerts := None |}) !! 0%nat
  = Some (Example.entry "2" 0.85 Backend.High).
Proof.
  refine (proj1 (proj2 (dashboard_recent
                          {| prediction_history :=
                               Some [Example.entry "1" 0.2 Backend.Low;
                                     Example.entry "2" 0.85 Backend.High];
                             flood_alerts := None |} _ eq_refl)) 0%nat _).
  cbn. lia.
Defined.

(** X12.  The trend chart shows the same last ten predictions oldest first,
    labelled #1, #2, ... in that order. *)
Theorem dashboard_trendData (toFixed : Q -> nat -> string) (ls : localStorage)
    (predictions : list PredictionHistoryEntry.t) :
  prediction_history ls = Some predictions ->
  trendData toFixed (load ls)
  = imap (fun j pred =>
            {| TrendPoint.name := "#" +:+ pretty (j + 1)%nat;
               TrendPoint.probability :=
                 toFixed (Backend.flood_probability
                            (PredictionHistoryEntry.response pred) * 100) 1%nat;
               TrendPoint.confidence :=
                 toFixed (Backend.confidence
                            (PredictionHistoryEntry.response pred) * 100) 1%nat |})
         (slice_last 10 predictions).
Proof.
  intros Hls. unfold trendData, load. rewrite Hls. cbn [recentPredictions].
  set (l := slice_last 10 predictions).
  apply list_eq. intros j.
  destruct (decide (j < length l)%nat) as [Hj | Hj].
  - rewrite reverse_lookup by (by rewrite length_imap, length_reverse).
    rewrite !list_lookup_imap, length_imap, length_reverse.
    rewrite reverse_lookup by lia.
    replace (length l - S (length l - S j))%nat with j by lia.
    destruct (l !! j) as [pred|]; [| reflexivity].
    cbn [fmap option_fmap option_map]. do 4 f_equal. lia.
  - rewrite !lookup_ge_None_2; [reflexivity | |].
    + rewrite length_imap. lia.
    + rewrite length_reverse, length_imap, length_reverse. lia.
Qed.

Lemma dashboard_trendData_witness :
  trendData (fun _ _ => "0.0"%string)
    (load {| prediction_history := Some [Example.entry "1" 0.2 Backend.Low];
             flood_alerts := None |})
  = [{| TrendPoint.name := "#1"; TrendPoint.probability := "0.0";
        TrendPoint.confidence := "0.0" |}].
Proof.
  apply (dashboard_trendData (fun _ _ => "0.0"%string)
           {| prediction_history := Some [Example.entry "1" 0.2 Backend.Low];
              flood_alerts := None |}
           [Example.entry "1" 0.2 Backend.Low]).
  reflexivity.
Defined.

End DashboardProperties.

(** ** The prediction page *)

Section PredictionPage.
Import Frontend Types App.

Lemma handlePrediction_resolved_eq (toFixed : number -> nat -> string)
    (clock : Clock) (data : PredictionRequest)
    (prediction : Backend.PredictionResponse) (s : PageState) (ls : localStorage)
    (done : PageState * localStorage) :
  fst (on_resolved toFixed clock data prediction
         (setError None (setIsLoading true s), ls)) = Some done ->
  handlePrediction toFixed clock data (Api.Resolved prediction) (s, ls)
  = (setIsLoading false (fst done), snd done).
Proof.
  intros Hdone. unfold handlePrediction.
  destruct (on_resolved toFixed clock data prediction
              (setError None (setIsLoading true s), ls)) as [[d|] [s' ls']];
    cbn [fst] in Hdone; [| discriminate].
  injection Hdone as ->. by destruct done.
Qed.

(** What the store holds after a resolved call for a request whose
    coordinates are numbers. *)
Lemma handlePrediction_store (toFixed : number -> nat -> string)
    (clock : Clock) (data : PredictionRequest)
    (prediction : Backend.PredictionResponse) (s : PageState) (ls : localStorage)
    (lat_n lon_n : number) :
  lat data = JNum lat_n ->
  lon data = JNum lon_n ->
  exists entry alert,
    prediction_history
      (snd (handlePrediction toFixed clock data (Api.Resolved prediction) (s, ls)))
    = Some (PredictionHistoryEntry.roundtrip <$>
              (default [] (prediction_history ls) ++ [entry]))
    /\ flood_alerts
         (snd (handlePrediction toFixed clock data (Api.Resolved prediction) (s, ls)))
       = match Backend.risk_level prediction with
         | Backend.Low => flood_alerts ls
         | _ => Some (Alert.roundtrip <$> (alert :: default [] (flood_alerts ls)))
         end
    /\ PredictionHistoryEntry.response entry = prediction
    /\ PredictionHistoryEntry.id entry = history_id clock.
Proof.
  intros Hlat Hlon.
  erewrite handlePrediction_resolved_eq; last first.
  { unfold on_resolved. rewrite Hlat, Hlon. cbn [toFixed_of fst]. reflexivity. }
  cbn [fst snd].
  destruct (Backend.risk_level prediction) eqn:Hlevel.
  - eexists _, (Example.alert "0" Backend.Low false). repeat split.
  - eexists _, _. repeat split.
  - eexists _, _. repeat split.
Qed.

(** X13.  When the call resolves for a request whose coordinates are
    numbers, the page shows the prediction without an error, one entry for
    it is appended to the stored history, and an unread alert is put in
    front of the stored alerts exactly when the tier is High or Medium; a
    Low prediction leaves the stored alerts alone. *)
Theorem handlePrediction_resolved (toFixed : number -> nat -> string)
    (clock : Clock) (data : PredictionRequest)
    (prediction : Backend.PredictionResponse) (s : PageState) (ls : localStorage)
    (lat_n lon_n : number) :
  lat data = JNum lat_n ->
  lon data = JNum lon_n ->
  let w := handlePrediction toFixed clock data (Api.Resolved prediction) (s, ls) in
  (result (fst w) = Some prediction
   /\ lastRequest (fst w) = Some data
   /\ error (fst w) = None
   /\ isLoading (fst w) = false)
  /\ (exists entry,
        prediction_history (snd w)
        = Some (PredictionHistoryEntry.roundtrip <$>
                  (default [] (prediction_history ls) ++ [entry]))
        /\ PredictionHistoryEntry.id entry = history_id clock
        /\ PredictionHistoryEntry.request entry = data
        /\ PredictionHistoryEntry.response entry = prediction)
  /\ (Backend.risk_level prediction = Backend.Low ->
      flood_alerts (snd w) = flood_alerts ls)
  /\ (Backend.risk_level prediction <> Backend.Low ->
      exists alert,
        flood_alerts (snd w)
        = Some (Alert.roundtrip <$> (alert :: default [] (flood_alerts ls)))
        /\ Alert.id alert = alert_id clock
        /\ Alert.isRead alert = false
        /\ Alert.riskLevel alert = Backend.risk_level prediction
        /\ Alert.probability alert = Backend.flood_probability prediction).
Proof.
  intros Hlat Hlon w. subst w.
  erewrite handlePrediction_resolved_eq; last first.
  { unfold on_resolved. rewrite Hlat, Hlon. cbn [toFixed_of fst]. reflexivity. }
  cbn [fst snd].
  destruct (Backend.risk_level prediction) eqn:Hlevel;
    (split; [repeat split |]); (split; [eexists; repeat split |]);
    (split; [first [reflexivity | discriminate]
            | first [congruence | intros _; eexists; repeat split]]).
Qed.

Lemma handlePrediction_resolved_witness :
  result
    (fst (handlePrediction (fun _ _ => "0"%string) Example.clock Example.form
            (Api.Resolved (Example.response 0.85 Backend.High))
            (initial, {| prediction_history := None; flood_alerts := None |})))
  = Some (Example.response 0.85 Backend.High).
Proof.
  refine (proj1 (proj1 (handlePrediction_resolved (fun _ _ => "0"%string)
                          Example.clock Example.form
                          (Example.response 0.85 Backend.High) initial
                          {| prediction_history := None; flood_alerts := None |}
                          (Finite 24.3636) (Finite 88.6241) _ _)));
    reflexivity.
Defined.

(** X14.  When the call is rejected nothing is stored and the page keeps
    the result it showed before; the error text is "Prediction failed: "
    followed by the message of an [ApiError], and the fixed backend hint for
    any other failure.  When the call resolves but a coordinate of the
    request is undefined or null, the new result is shown together with the
    fixed hint, and nothing is stored. *)
Theorem handlePrediction_rejected (toFixed : number -> nat -> string)
    (clock : Clock) (data : PredictionRequest) (s : PageState) (ls : localStorage) :
  (forall status message,
     handlePrediction toFixed clock data (Api.ApiError status message) (s, ls)
     = ({| result := result s; isLoading := false;
           error := Some ("Prediction failed: " +:+ message);
           lastRequest := lastRequest s |}, ls))
  /\ handlePrediction toFixed clock data Api.OtherError (s, ls)
     = ({| result := result s; isLoading := false; error := Some unexpected;
           lastRequest := lastRequest s |}, ls)
  /\ (forall prediction,
        toFixed_of toFixed (lat data) 4 = None
        \/ toFixed_of toFixed (lon data) 4 = None ->
        handlePrediction toFixed clock data (Api.Resolved prediction) (s, ls)
        = ({| result := Some prediction; isLoading := false;
              error := Some unexpected; lastRequest := Some data |}, ls)).
Proof.
  split; [reflexivity |]. split; [reflexivity |].
  intros prediction Hnone. unfold handlePrediction, on_resolved.
  destruct (toFixed_of toFixed (lat data) 4) as [lat_text|];
    destruct (toFixed_of toFixed (lon data) 4) as [lon_text|];
    try reflexivity.
  by destruct Hnone.
Qed.

Lemma count_level_roundtrip (r : Backend.RiskLevel)
    (l : list PredictionHistoryEntry.t) :
  Dashboard.count_level r (PredictionHistoryEntry.roundtrip <$> l)
  = Dashboard.count_level r l.
Proof.
  unfold Dashboard.count_level. induction l as [|e l IH]; [reflexivity |].
  cbn [fmap list_fmap List.filter PredictionHistoryEntry.roundtrip
       PredictionHistoryEntry.response] in *.
  case_bool_decide; cbn [length]; by rewrite IH.
Qed.

Lemma count_level_snoc (r : Backend.RiskLevel) (l : list PredictionHistoryEntry.t)
    (e : PredictionHistoryEntry.t) :
  Dashboard.count_level r (l ++ [e])
  = (Dashboard.count_level r l
     + if bool_decide (Backend.risk_level (PredictionHistoryEntry.response e) = r)
       then 1 else 0)%nat.
Proof.
  unfold Dashboard.count_level. rewrite List.filter_app, length_app.
  cbn [List.filter]. by case_bool_decide.
Qed.

(** X15.  A resolved prediction reaches the dashboard: the next time the
    dashboard loads, the total is one higher, the counter of the
    prediction's tier is one higher and the two other counters are
    unchanged, and the first of the recent predictions is the new one. *)
Theorem prediction_reaches_dashboard (toFixed : number -> nat -> string)
    (clock : Clock) (data : PredictionRequest)
    (prediction : Backend.PredictionResponse) (s : PageState) (ls : localStorage)
    (lat_n lon_n : number) :
  lat data = JNum lat_n ->
  lon data = JNum lon_n ->
  let before := Dashboard.load ls in
  let after :=
    Dashboard.load
      (snd (handlePrediction toFixed clock data (Api.Resolved prediction) (s, ls))) in
  let bump (r : Backend.RiskLevel) : nat :=
    if bool_decide (Backend.risk_level prediction = r) then 1%nat else 0%nat in
  Dashboard.totalPredictions after = S (Dashboard.totalPredictions before)
  /\ Dashboard.highRiskCount after
     = (Dashboard.highRiskCount before + bump Backend.High)%nat
  /\ Dashboard.mediumRiskCount after
     = (Dashboard.mediumRiskCount before + bump Backend.Medium)%nat
  /\ Dashboard.lowRiskCount after
     = (Dashboard.lowRiskCount before + bump Backend.Low)%nat
  /\ (exists entry,
        Dashboard.recentPredictions after !! 0%nat = Some entry
        /\ PredictionHistoryEntry.response entry = prediction
        /\ PredictionHistoryEntry.id entry = history_id clock).
Proof.
  intros Hlat Hlon.
  destruct (handlePrediction_store toFixed clock data prediction s ls lat_n lon_n
              Hlat Hlon) as (entry & alert & Hhist & _ & Hresp & Hid).
  cbn zeta. unfold Dashboard.load at 1 3 5 7 9. rewrite Hhist.
  cbn [Dashboard.totalPredictions Dashboard.highRiskCount Dashboard.mediumRiskCount
       Dashboard.lowRiskCount Dashboard.recentPredictions].
  rewrite !count_level_roundtrip, !count_level_snoc, Hresp.
  rewrite length_fmap, length_app. cbn [length].
  assert (Hold : forall r,
            Dashboard.count_level r (default [] (prediction_history ls))
            = match r with
              | Backend.High => Dashboard.highRiskCount (Dashboard.load ls)
              | Backend.Medium => Dashboard.mediumRiskCount (Dashboard.load ls)
              | Backend.Low => Dashboard.lowRiskCount (Dashboard.load ls)
              end
            /\ length (default [] (prediction_history ls))
               = Dashboard.totalPredictions (Dashboard.load ls)).
  { intros r. unfold Dashboard.load.
    destruct (prediction_history ls); destruct r; split; reflexivity. }
  rewrite (proj1 (Hold Backend.High)), (proj1 (Hold Backend.Medium)),
    (proj1 (Hold Backend.Low)), (proj2 (Hold Backend.Low)).
  split; [lia |]. repeat (split; [reflexivity |]).
  exists (PredictionHistoryEntry.roundtrip entry).
  split; [| split; [exact Hresp | exact Hid]].
  rewrite fmap_app. cbn [fmap list_fmap].
  rewrite reverse_lookup
    by (rewrite slice_last_length, length_app; cbn [length]; lia).
  rewrite slice_last_lookup, slice_last_length, !length_app. cbn [length].
  rewrite lookup_app_r by (rewrite length_fmap; lia).
  rewrite length_fmap.
  match goal with |- [_] !! ?i = _ => replace i with 0%nat by lia end.
  reflexivity.
Qed.

Lemma prediction_reaches_dashboard_witness :
  Dashboard.totalPredictions
    (Dashboard.load
       (snd (handlePrediction (fun _ _ => "0"%string) Example.clock Example.form
               (Api.Resolved (Example.response 0.85 Backend.High))
               (initial, {| prediction_history := None; flood_alerts := None |}))))
  = 1%nat.
Proof.
  refine (proj1 (prediction_reaches_dashboard (fun _ _ => "0"%string)
                   Example.clock Example.form
                   (Example.response 0.85 Backend.High) initial
                   {| prediction_history := None; flood_alerts := None |}
                   (Finite 24.3636) (Finite 88.6241) _ _));
    reflexivity.
Defined.



End PredictionPage.

(** ** The API client *)

Section ApiClient.
Import Api.

Lemma find_message_absent (members : list (string * Json.t)) :
  "message"%string ∉ members.*1 ->
  List.find (fun m => bool_decide (fst m = "message"%string)) (reverse members) = None.
Proof.
  intros Habsent.
  destruct (List.find _ (reverse members)) as [[k v]|] eqn:Hfind; [| reflexivity].
  apply find_some in Hfind as [Hin Hk]. cbn [fst] in Hk.
  apply bool_decide_eq_true in Hk as ->.
  apply list_elem_of_In in Hin. rewrite elem_of_reverse in Hin.
  destruct Habsent. apply list_elem_of_fmap. by exists ("message"%string, v).
Qed.

(** X17.  For an answer that is not ok, [handleResponse] never resolves.  It
    throws an [ApiError] with the status of the answer whose message is
    "Request failed" when the body is not JSON, "HTTP <status>" when the
    body is an object without a [message] member (so the [detail] text of a
    FastAPI error is not carried over), and the text of the last [message]
    member when that is a non-empty string.  A body that is [null] ends in
    a failure that is not an [ApiError]. *)
Theorem handleResponse_not_ok (ToString : Json.t -> string) (response : Response) :
  ok response = false ->
  (forall body, handleResponse ToString response <> Resolved body)
  /\ (json response = None ->
      handleResponse ToString response = ApiError (status response) "Request failed")
  /\ (forall members,
        json response = Some (Json.Object members) ->
        "message"%string ∉ members.*1 ->
        handleResponse ToString response
        = ApiError (status response) ("HTTP " +:+ pretty (status response)))
  /\ (forall members s,
        json response = Some (Json.Object (members ++ [("message"%string, Json.Str s)])) ->
        s <> EmptyString ->
        handleResponse ToString response = ApiError (status response) s)
  /\ (json response = Some Json.Null ->
      handleResponse ToString response = OtherError).
Proof.
  intros Hok. unfold handleResponse. rewrite Hok. cbn [negb].
  split.
  { intros body. destruct (message_of _) as [[m|]|]; discriminate. }
  split; [by intros -> |].
  split.
  { intros members -> Habsent. cbn [message_of].
    by rewrite find_message_absent. }
  split; [| by intros ->].
  intros members s -> Hs. cbn [message_of].
  rewrite reverse_app. cbn [reverse rev_append app List.find fst snd].
  rewrite bool_decide_eq_true_2 by reflexivity.
  cbn [fmap option_fmap option_map snd truthy text_of].
  by rewrite bool_decide_eq_false_2.
Qed.

Lemma handleResponse_not_ok_witness :
  handleResponse (fun _ => "[object Object]"%string)
    {| ok := false; status := 503;
       json := Some (Json.Object [("detail"%string, Json.Str "Model not loaded")]) |}
  = ApiError 503 "HTTP 503".
Proof.
  refine (proj1 (proj2 (proj2 (handleResponse_not_ok (fun _ => "[object Object]"%string)
            {| ok := false; status := 503;
               json := Some (Json.Object [("detail"%string, Json.Str "Model not loaded")]) |}
            _))) [("detail"%string, Json.Str "Model not loaded")] _ _).
  - reflexivity.
  - reflexivity.
  - compute_done.
Defined.

End ApiClient.

(** ** The gauge and the result card *)

Section Gauge.
Import RiskGauge.





End Gauge.

(** ** The comparison tool *)

Section Comparison.
Import Frontend ComparisonTool.

Lemma step_at_most_three (s : State) (a : action) :
  (length (locations s) <= 3)%nat -> (length (locations (step s a)) <= 3)%nat.
Proof.
  intros Hs. destruct a as [now | id | id a | getDay predictFlood]; cbn [step].
  - unfold addLocation. case_bool_decide as Hfull.
    + exact Hs.
    + cbn [setLocations locations]. rewrite length_app. cbn [length]. lia.
  - unfold removeLocation. cbn [setLocations locations].
    etransitivity; [apply filter_length_le | exact Hs].
  - unfold updateLocation. cbn [setLocations locations]. by rewrite length_map.
  - unfold runComparison. cbn [setIsLoading setLocations locations].
    by rewrite length_imap.
Qed.

(** X20.  Whatever the user does with the comparison tool, starting from
    the empty tool, it never holds more than three locations; adding to a
    full tool changes no location and raises the alert. *)
Theorem comparison_at_most_three (actions : list action) (now : string) :
  (length (locations (run actions)) <= 3)%nat
  /\ (length (locations (run actions)) = 3%nat ->
      locations (addLocation now (run actions)) = locations (run actions)
      /\ alerts (addLocation now (run actions))
         = alerts (run actions) ++ ["Maximum 3 locations can be compared"%string]).
Proof.
  split.
  - unfold run. induction actions as [|a actions IH] using rev_ind.
    + cbn. lia.
    + rewrite foldl_app. cbn [foldl]. by apply step_at_most_three.
  - intros Hfull. unfold addLocation.
    rewrite bool_decide_eq_true_2 by lia. split; reflexivity.
Qed.


Lemma js_or_default (input : jsval) (fallback : Q) :
  truthy (num fallback) = true ->
  truthy (js_or input (num fallback)) = true
  /\ (truthy input = true -> js_or input (num fallback) = input)
  /\ (truthy input = false -> js_or input (num fallback) = num fallback).
Proof.
  intros Hfallback. unfold js_or. destruct (truthy input) eqn:E; repeat split; done.
Qed.

(** X22.  In the request the comparison tool sends, a precipitation input
    that is truthy is passed on and one that is 0, NaN or missing is
    replaced by the default of its window (50, 120, 200, 300): no such
    request carries a falsy precipitation. *)
Theorem request_of_precipitation (day : Z * Z) (loc : Location.t) :
  let r := request_of day loc in
  Forall (fun '(input, sent, fallback) =>
            truthy sent = true
            /\ (truthy input = true -> sent = input)
            /\ (truthy input = false -> sent = num fallback))
    [(Location.precip_1d loc, Frontend.precip_1d r, 50);
     (Location.precip_3d loc, Frontend.precip_3d r, 120);
     (Location.precip_7d loc, Frontend.precip_7d r, 200);
     (Location.precip_14d loc, Frontend.precip_14d r, 300)]
  /\ Frontend.lat r = Location.lat loc
  /\ Frontend.lon r = Location.lon loc.
Proof.
  cbn zeta. unfold request_of.
  cbn [Frontend.precip_1d Frontend.precip_3d Frontend.precip_7d Frontend.precip_14d
       Frontend.lat Frontend.lon].
  split; [| split; reflexivity].
  repeat (constructor; [by apply js_or_default |]). constructor.
Qed.

End Comparison.

(** ** The prediction form, continued *)

Section FormMore.
Import Frontend Form.

(** X23.  A change of one input writes the parsed text into the field of
    that name, or 0 when the text parses to NaN or to 0, and leaves the
    other twelve fields as they were; a name that is not a field of the form
    changes none of them.  The value written is never NaN. *)
Theorem handleChange_effect (parseFloat : string -> number) (name value : string)
    (s : FormState) :
  let s' := handleChange parseFloat name value s in
  let written := js_or (JNum (parseFloat value)) (JNum (Finite 0)) in
  Forall (fun '(key, field) =>
            field (formData s')
            = if bool_decide (name = key) then written else field (formData s))
    fields
  /\ (name ∉ fields.*1 ->
      Forall (fun '(key, field) => field (formData s') = field (formData s)) fields)
  /\ (truthy (JNum (parseFloat value)) = true -> written = JNum (parseFloat value))
  /\ (truthy (JNum (parseFloat value)) = false -> written = JNum (Finite 0))
  /\ written <> JNum NaN
  /\ isFetchingWeather s' = isFetchingWeather s.
Proof.
  cbn zeta.
  assert (Hfields :
    Forall (fun '(key, field) =>
              field (formData (handleChange parseFloat name value s))
              = if bool_decide (name = key)
                then js_or (JNum (parseFloat value)) (JNum (Finite 0))
                else field (formData s))
      fields)
    by (unfold fields; repeat constructor).
  split; [exact Hfields |].
  split.
  { intros Hname. apply Forall_forall. intros [key field] Hin.
    rewrite Forall_forall in Hfields. rewrite (Hfields _ Hin).
    rewrite bool_decide_eq_false_2; [reflexivity |].
    intros ->. apply Hname. apply list_elem_of_fmap. by exists (key, field). }
  unfold js_or. destruct (truthy (JNum (parseFloat value))) eqn:E.
  - repeat split; try done. intros H. rewrite H in E. discriminate.
  - repeat split; done.
Qed.





End FormMore.

(** ** The push script *)

Section PushScriptProperties.
Import PushScript.

Lemma snoc_split {A} (pre post tr : list A) (x e : A) :
  pre ++ x :: post = tr ++ [e] ->
  (post = [] /\ x = e /\ pre = tr)
  \/ (exists post', post = post' ++ [e] /\ tr = pre ++ x :: post').
Proof.
  destruct post as [|y post' _] using rev_ind; intros Heq.
  - left. apply app_inj_tail in Heq as [-> ->]. done.
  - right. exists post'.
    change (pre ++ x :: post' ++ [y]) with (pre ++ (x :: post') ++ [y]) in Heq.
    rewrite app_assoc in Heq. apply app_inj_tail in Heq as [<- ->]. done.
Qed.

(** Every commit in the trace has a push after it, or is still counted. *)
Lemma loop_pending (BatchSize : Z) (pushOk : nat -> bool)
    (files : list (string * bool)) (st : state) :
  (forall pre f post,
     trace st = pre ++ Commit f :: post ->
     (exists ok, Push ok ∈ post) \/ (0 < pushCounter st)%nat) ->
  forall pre f post,
    trace (loop BatchSize pushOk files st) = pre ++ Commit f :: post ->
    (exists ok, Push ok ∈ post)
    \/ (0 < pushCounter (loop BatchSize pushOk files st))%nat.
Proof.
  revert st. induction files as [|[file changed] rest IH]; intros st Hst;
    [exact Hst |].
  cbn [loop].
  assert (Hadd : forall pre f post,
            trace (log (Add file) st) = pre ++ Commit f :: post ->
            (exists ok, Push ok ∈ post) \/ (0 < pushCounter st)%nat).
  { intros pre f post Heq. cbn [log trace] in Heq. symmetry in Heq.
    apply snoc_split in Heq as [(_ & [=] & _) | (post' & -> & Htr)].
    destruct (Hst _ _ _ Htr) as [[ok Hok] | Hpos]; [left | by right].
    exists ok. apply elem_of_app. by left. }
  destruct changed; [| apply IH; exact Hadd].
  cbn [log setPushCounter pushCounter pushes trace push].
  case_bool_decide as Hbatch.
  - destruct (pushOk (pushes st)) eqn:Hok.
    + apply IH. intros pre f post Heq. cbn [setPushCounter trace] in Heq.
      left. exists true. symmetry in Heq.
      apply snoc_split in Heq as [(_ & [=] & _) | (post' & -> & _)].
      apply elem_of_app. right. by left.
    + intros pre f post Heq. cbn [trace] in Heq.
      left. exists false. symmetry in Heq.
      apply snoc_split in Heq as [(_ & [=] & _) | (post' & -> & _)].
      apply elem_of_app. right. by left.
  - apply IH. intros pre f post Heq. right.
    cbn [setPushCounter log pushCounter]. lia.
Qed.

(** X25.  Every commit the push script makes is followed by a push attempt:
    a full batch is pushed inside the loop, and what is left at the end of
    the loop, also after a failed push has stopped it, is pushed once
    more. *)
Theorem script_pushes_every_commit (BatchSize : Z) (pushOk : nat -> bool)
    (orderedFiles : list (string * bool)) (pre post : list event) (file : string) :
  trace (script BatchSize pushOk orderedFiles) = pre ++ Commit file :: post ->
  exists ok, Push ok ∈ post.
Proof.
  unfold script.
  pose proof (loop_pending BatchSize pushOk orderedFiles initial) as Hloop.
  assert (Hinit : forall pre f post,
            trace initial = pre ++ Commit f :: post ->
            (exists ok, Push ok ∈ post) \/ (0 < pushCounter initial)%nat)
    by (intros [|? ?] ? ? [=]).
  specialize (Hloop Hinit). clear Hinit.
  case_bool_decide as Hleft; intros Heq.
  - cbn [push snd trace] in Heq. symmetry in Heq.
    apply snoc_split in Heq as [(_ & [=] & _) | (post' & -> & _)].
    eexists. apply elem_of_app. right. by left.
  - destruct (Hloop _ _ _ Heq) as [Hpush | Hpos]; [exact Hpush | lia].
Qed.

Lemma script_pushes_every_commit_witness :
  exists ok, Push ok ∈ [Add "b"%string; Push true].
Proof.
  apply (script_pushes_every_commit 10 (fun _ => true)
           [("a"%string, true); ("b"%string, false)] [Add "a"%string] _ "a"%string).
  reflexivity.
Defined.



End PushScriptProperties.
